(** * Streaming file responses

    A shallow embedding of [starlette_responses_kit/file.py]: the base
    response protocol [BaseFileResponse] and its four content sources
    [FileResponse], [BytesFileResponse], [TextFileResponse] and
    [JsonFileResponse].

    Python [str] values are represented by their UTF-8 byte form (a Rocq
    [string]), [bytes] values by [list Byte.byte], [int] by [Z] and [float]
    by binary64 primitive floats.  A response object is a record whose header
    list is updated in place; one invocation of a response runs in a small
    state-and-exception monad over the response, a clock and the log of what
    was sent on the output channel. *)

From Stdlib Require Import String Ascii List ZArith Lia Bool.
From Stdlib Require Import Floats.PrimFloat DecimalString.
Import ListNotations.

Local Open Scope string_scope.
Local Open Scope list_scope.
Local Open Scope Z_scope.

Infix "+++" := String.append (at level 60, right associativity).

(** ** Python values *)

Definition bytes := list Byte.byte.

(** [s.encode('utf-8')]: strings already are their UTF-8 bytes. *)
Definition encode (s : string) : bytes := list_byte_of_string s.

(** [len(b)] *)
Definition len (b : bytes) : Z := Z.of_nat (length b).

(** [str(n)] for an [int]. *)
Definition str_int (n : Z) : string := NilZero.string_of_int (Z.to_int n).

(** Truth value of an [int] and of a [float], as [or] tests them. *)
Definition truthy_int (n : Z) : bool := negb (n =? 0).

Definition truthy_float (x : float) : bool := negb (PrimFloat.eqb x 0%float).

(** [x or y] where [x] is an optional [int], resp. an optional [float]. *)
Definition or_int (x : option Z) (y : Z) : Z :=
  match x with
  | Some n => if truthy_int n then n else y
  | None => y
  end.

(** The double quote character, and the apostrophe, as strings. *)
Definition dquote : string := String (ascii_of_nat 34) EmptyString.

Definition squote : string := String (ascii_of_nat 39) EmptyString.

(** [str.upper] and [str.lower] on the ASCII letters; other bytes are kept.
    (No character outside ASCII has an upper-case form equal to one of the
    letters of [HEAD], so comparing with that word is not affected.) *)
Definition upper_ascii (c : ascii) : ascii :=
  let n := nat_of_ascii c in
  if ((97 <=? n) && (n <=? 122))%nat then ascii_of_nat (n - 32) else c.

Definition lower_ascii (c : ascii) : ascii :=
  let n := nat_of_ascii c in
  if ((65 <=? n) && (n <=? 90))%nat then ascii_of_nat (n + 32) else c.

Fixpoint upper (s : string) : string :=
  match s with
  | EmptyString => EmptyString
  | String c s' => String (upper_ascii c) (upper s')
  end.

Fixpoint lower (s : string) : string :=
  match s with
  | EmptyString => EmptyString
  | String c s' => String (lower_ascii c) (lower s')
  end.

(** [sub in s] *)
Definition contains (sub s : string) : bool :=
  match String.index 0 sub s with
  | Some _ => true
  | None => false
  end.

(** [range(start, stop, step)]; a zero step raises [ValueError]. *)
Inductive exn : Type :=
| RuntimeError (message : string)
| FileNotFoundError (path : string)
| OSError (path : string)
| ValueError (message : string)
| OverflowError (message : string)
| TypeError (message : string).

Definition range (start stop step : Z) : exn + list Z :=
  if step =? 0 then inl (ValueError "range() arg 3 must not be zero")
  else
    let n := if 0 <? step then (stop - start + step - 1) / step
             else (start - stop - step - 1) / (- step) in
    inr (map (fun j => start + Z.of_nat j * step) (seq 0 (Z.to_nat n))).

(** [text[a:b]]: indices below zero count from the end, and both are clamped
    to the length. *)
Definition clamp_index (n i : Z) : Z :=
  if i <? 0 then Z.max 0 (i + n) else Z.min i n.

Definition slice (text : bytes) (a b : Z) : bytes :=
  let a' := clamp_index (len text) a in
  let b' := clamp_index (len text) b in
  firstn (Z.to_nat (b' - a')) (skipn (Z.to_nat a') text).

(** [slicer(text, chunk_size)] *)
Definition slicer (text : bytes) (chunk_size : Z) : exn + list bytes :=
  match range 0 (len text) chunk_size with
  | inl e => inl e
  | inr indexes =>
      inr (map (fun chunk_index => slice text chunk_index (chunk_index + chunk_size))
               indexes)
  end.

(** ** The header container of the host framework

    [Response.init_headers], [Response.headers] and
    [MutableHeaders.setdefault] belong to the host framework, not to this
    package.  They are modelled after the framework: [raw_headers] is a list
    of lower-cased name/value pairs, [headers] is a view on that same list,
    [setdefault] appends a pair when no pair with the lower-cased name is
    there, and a lookup returns the first pair with the name. *)

Definition Headers := list (string * string).

Fixpoint header_get (key : string) (h : Headers) : option string :=
  match h with
  | [] => None
  | (k, v) :: h' => if String.eqb k key then Some v else header_get key h'
  end.

Definition setdefault (h : Headers) (key value : string) : Headers :=
  match header_get (lower key) h with
  | Some _ => h
  | None => h ++ [(lower key, value)]
  end.

Definition charset : string := "utf-8".

(** [Response.init_headers(headers)] for a response without a [body]
    attribute: no content-length is populated here. *)
Definition init_headers (headers : option Headers) (media_type : option string)
  : Headers :=
  let raw := match headers with
             | None => []
             | Some hs => map (fun kv => (lower (fst kv), snd kv)) hs
             end in
  let populate_content_type :=
    match header_get "content-type" raw with
    | Some _ => false
    | None => true
    end in
  match media_type with
  | Some content_type =>
      if populate_content_type then
        let content_type' :=
          if String.prefix "text/" content_type
             && negb (contains "charset=" (lower content_type))
          then content_type +++ "; charset=" +++ charset
          else content_type in
        raw ++ [("content-type", content_type')]
      else raw
  | None => raw
  end.

(** ** Library functions the package calls

    [urllib.parse.quote], [mimetypes.guess_type], [email.utils.formatdate]
    with [usegmt=True], [str] on a float and the md5 hex digest are taken as
    given.  [formatdate] raises on a timestamp it cannot turn into a date
    (not a number, infinite, or out of the range of dates). *)
Class Collaborators : Type := {
  quote : string -> string;
  guess_type : string -> option string;
  formatdate : float -> exn + string;
  str_float : float -> string;
  md5_hexdigest : bytes -> string
}.

(** ** The operating system: [os.stat], opening a file for reading, and the
    successive readings of [time.monotonic]. *)
Record stat_result : Type := {
  st_mode : Z;
  st_size : Z;
  st_mtime : float
}.

Record OS : Type := {
  os_stat : string -> exn + stat_result;
  open_rb : string -> exn + bytes;
  monotonic : nat -> float
}.

(** [stat.S_ISREG(mode)] *)
Definition S_IFMT (mode : Z) : Z := Z.land mode 61440.

Definition S_ISREG (mode : Z) : bool := S_IFMT mode =? 32768.

(** [file.read(n)]: everything when [n] is negative. *)
Definition read (file : bytes) (n : Z) : bytes :=
  if n <? 0 then file else firstn (Z.to_nat n) file.

(** ** Responses, messages and the invocation monad *)

(** A background task is represented by the values it writes, in order. *)
Definition BackgroundTask := list string.

(** What distinguishes the classes: the attributes each one adds. *)
Inductive Source : Type :=
| FileSource (path : string) (stat : option stat_result)
| BytesSource (content : bytes)
| TextSource (content : bytes)
| JsonSource (content : bytes).

Record Response : Type := mkResponse {
  source : Source;
  status_code : Z;
  media_type : option string;
  background : option BackgroundTask;
  filename : option string;
  raw_headers : Headers;
  size : option Z;
  mtime : option float;
  chunk_size : Z
}.

Definition with_headers (r : Response) (h : Headers) : Response :=
  mkResponse (source r) (status_code r) (media_type r) (background r)
             (filename r) h (size r) (mtime r) (chunk_size r).

(** Overriding the class attribute [chunk_size]. *)
Definition with_chunk_size (r : Response) (n : Z) : Response :=
  mkResponse (source r) (status_code r) (media_type r) (background r)
             (filename r) (raw_headers r) (size r) (mtime r) n.

(** The request: its method and the names of the extensions the transport
    announces in [scope['extensions']]. *)
Record Scope : Type := {
  method : string;
  extensions : list string
}.

(** The messages of the output channel.  [ResponsePathsend] is the
    send-whole-file-by-path message of the transport. *)
Inductive Message : Type :=
| ResponseStart (status : Z) (headers : Headers)
| ResponseBody (body : bytes) (more_body : bool)
| ResponsePathsend (path : string).

(** What an invocation does, in order: messages sent, the file handle being
    opened and closed, the post-send hook returning, and the steps of the
    background task. *)
Inductive Event : Type :=
| Sent (m : Message)
| Opened (path : string)
| Closed (path : string)
| PostCallDone
| TaskStarted
| TaskWrote (value : string)
| TaskFinished.

Record World : Type := mkWorld {
  self : Response;
  ticks : nat;
  out : list Event
}.

Inductive Result (A : Type) : Type :=
| Ok (a : A)
| Raise (e : exn).

Arguments Ok {A} a.
Arguments Raise {A} e.

Definition M (A : Type) : Type := World -> Result A * World.

Definition ret {A : Type} (a : A) : M A := fun w => (Ok a, w).

Definition bind {A B : Type} (m : M A) (k : A -> M B) : M B :=
  fun w =>
    match m w with
    | (Ok a, w') => k a w'
    | (Raise e, w') => (Raise e, w')
    end.

Definition raise {A : Type} (e : exn) : M A := fun w => (Raise e, w).

(** [try: body / except: handler] *)
Definition try_except {A : Type} (body : M A) (handler : exn -> M A) : M A :=
  fun w =>
    match body w with
    | (Ok a, w') => (Ok a, w')
    | (Raise e, w') => handler e w'
    end.

Notation "x <- m ;; k" := (bind m (fun x => k))
  (at level 61, m at next level, right associativity).
Notation "m ;; k" := (bind m (fun _ => k))
  (at level 61, right associativity).

Definition get_self : M Response := fun w => (Ok (self w), w).

Definition emit (e : Event) : M unit :=
  fun w => (Ok tt, mkWorld (self w) (ticks w) (out w ++ [e])).

(** [await send(message)] *)
Definition send (m : Message) : M unit := emit (Sent m).

(** [for x in xs: body(x)] *)
Fixpoint for_each {A : Type} (xs : list A) (body : A -> M unit) : M unit :=
  match xs with
  | [] => ret tt
  | x :: xs' => body x ;; for_each xs' body
  end.

(** [await self.background()] *)
Definition run_task (t : BackgroundTask) : M unit :=
  emit TaskStarted ;;
  for_each t (fun v => emit (TaskWrote v)) ;;
  emit TaskFinished.

Section Package.

Context {lib : Collaborators}.
Variable os : OS.

(** [time.monotonic()]: the next reading of the clock. *)
Definition time_monotonic : M float :=
  fun w => (Ok (monotonic os (ticks w)), mkWorld (self w) (S (ticks w)) (out w)).

(** [x or time.monotonic()] for an optional float [x]. *)
Definition or_monotonic (x : option float) : M float :=
  match x with
  | Some m => if truthy_float m then ret m else time_monotonic
  | None => time_monotonic
  end.

(** *** BaseFileResponse *)

(** [BaseFileResponse.set_content_disposition_header]; it is only called
    when there is a filename. *)
Definition set_content_disposition_header
  (r : Response) (content_disposition_type : string) : Response :=
  match filename r with
  | None => r
  | Some name =>
      let content_disposition_filename := quote name in
      let content_disposition :=
        if negb (String.eqb content_disposition_filename name) then
          content_disposition_type +++ "; filename*=utf-8" +++ squote +++ squote
            +++ content_disposition_filename
        else
          content_disposition_type +++ "; filename=" +++ dquote +++ name +++ dquote in
      with_headers r (setdefault (raw_headers r) "content-disposition" content_disposition)
  end.

(** [BaseFileResponse.set_stat_headers] *)
Definition etag_of (size : Z) (mtime : float) : string :=
  let etag_base := str_float mtime +++ "-" +++ str_int size in
  dquote +++ md5_hexdigest (encode etag_base) +++ dquote.

Definition set_stat_headers (r : Response) (size : Z) (mtime : float)
  : exn + Response :=
  let content_length := str_int size in
  match formatdate mtime with
  | inl e => inl e
  | inr last_modified =>
      let etag := etag_of size mtime in
      let h1 := setdefault (raw_headers r) "content-length" content_length in
      let h2 := setdefault h1 "last-modified" last_modified in
      let h3 := setdefault h2 "etag" etag in
      inr (with_headers r h3)
  end.

(** [self.set_stat_headers(size, mtime)] on the response being invoked. *)
Definition self_set_stat_headers (size : Z) (mtime : float) : M unit :=
  fun w =>
    match set_stat_headers (self w) size mtime with
    | inl e => (Raise e, w)
    | inr r => (Ok tt, mkWorld r (ticks w) (out w))
    end.

(** The constructor arguments every class passes on unchanged. *)
Record Common : Type := {
  arg_status_code : Z;
  arg_headers : option Headers;
  arg_media_type : option string;
  arg_background : option BackgroundTask;
  arg_content_disposition_type : string
}.

Definition default_args : Common :=
  {| arg_status_code := 200;
     arg_headers := None;
     arg_media_type := None;
     arg_background := None;
     arg_content_disposition_type := "attachment" |}.

(** [BaseFileResponse.__init__]; [src] stands for the attributes the subclass
    constructor adds around the call. *)
Definition BaseFileResponse_init
  (src : Source) (args : Common) (media_type : option string)
  (filename : option string) (size : option Z) (mtime : option float) : Response :=
  let media_type :=
    match media_type, filename with
    | None, Some name =>
        match guess_type name with
        | Some t => if String.eqb t EmptyString then Some "text/plain" else Some t
        | None => Some "text/plain"
        end
    | _, _ => media_type
    end in
  let r := mkResponse src (arg_status_code args) media_type (arg_background args)
                      filename (init_headers (arg_headers args) media_type)
                      size mtime (64 * 1024) in
  match filename with
  | Some _ => set_content_disposition_header r (arg_content_disposition_type args)
  | None => r
  end.

(** *** FileResponse *)

Definition FileResponse_init
  (path : string) (args : Common) (filename : option string)
  (stat : option stat_result) : Response :=
  let media_type :=
    match arg_media_type args, filename with
    | None, None => guess_type path
    | m, _ => m
    end in
  let size := match stat with Some s => Some (st_size s) | None => None end in
  let mtime := match stat with Some s => Some (st_mtime s) | None => None end in
  BaseFileResponse_init (FileSource path stat) args media_type filename size mtime.

Definition FileResponse_pre_call (path : string) (stat : option stat_result) : M unit :=
  stat_result <-
    match stat with
    | Some s => ret s
    | None =>
        try_except
          (match os_stat os path with
           | inr s =>
               self_set_stat_headers (st_size s) (st_mtime s) ;;
               ret s
           | inl e => raise e
           end)
          (fun exc =>
             match exc with
             | FileNotFoundError _ =>
                 raise (RuntimeError ("File at path " +++ path +++ " does not exist."))
             | _ => raise exc
             end)
    end ;;
  let mode := st_mode stat_result in
  if negb (S_ISREG mode) then
    raise (RuntimeError ("File at path " +++ path +++ " is not a file."))
  else ret tt.

(** The generator [FileResponse.iterate_content]: [yield] is what the
    consumer does with the chunk before the generator is resumed. *)
Definition FileResponse_iterate_content
  (path : string) (chunk_size : Z) (yield : bytes -> M unit) : M unit :=
  match open_rb os path with
  | inl e => raise e
  | inr file =>
      emit (Opened path) ;;
      yield (read file chunk_size) ;;
      emit (Closed path)
  end.

(** *** BytesFileResponse *)

Definition BytesFileResponse_init
  (content : bytes) (filename : string) (args : Common)
  (size : option Z) (mtime : option float) : Response :=
  BaseFileResponse_init (BytesSource content) args (arg_media_type args)
                        (Some filename) size mtime.

Definition BytesFileResponse_pre_call (content : bytes) : M unit :=
  r <- get_self ;;
  let local_size := match size r with None => len content | Some n => n end in
  local_mtime <- match mtime r with None => time_monotonic | Some m => ret m end ;;
  let header_size := or_int (size r) (len content) in
  header_mtime <- or_monotonic (mtime r) ;;
  self_set_stat_headers header_size header_mtime.

Definition BytesFileResponse_iterate_content
  (content : bytes) (chunk_size : Z) (yield : bytes -> M unit) : M unit :=
  match slicer content chunk_size with
  | inl e => raise e
  | inr chunks => for_each chunks yield
  end.

(** *** TextFileResponse *)

Definition TextFileResponse_init
  (content : string) (filename : string) (args : Common)
  (size : option Z) (mtime : option float) : Response :=
  BaseFileResponse_init (TextSource (encode content)) args (arg_media_type args)
                        (Some filename) size mtime.

Definition TextFileResponse_pre_call (content : bytes) : M unit :=
  r <- get_self ;;
  let local_size := match size r with None => len content | Some n => n end in
  local_mtime <- match mtime r with None => time_monotonic | Some m => ret m end ;;
  let header_size := or_int (size r) (len content) in
  header_mtime <- or_monotonic (mtime r) ;;
  self_set_stat_headers header_size header_mtime.

Definition TextFileResponse_iterate_content
  (content : bytes) (chunk_size : Z) (yield : bytes -> M unit) : M unit :=
  match slicer content chunk_size with
  | inl e => raise e
  | inr chunks => for_each chunks yield
  end.

(** *** JsonFileResponse

    [json.dumps] is taken as given; it raises on a structure it cannot
    serialise.  The class overrides the constructor only. *)

Variable JSON : Type.
Variable json_dumps : JSON -> exn + string.

Definition JsonFileResponse_init
  (content : JSON) (filename : string) (args : Common)
  (size : option Z) (mtime : option float) : exn + Response :=
  match json_dumps content with
  | inl e => inl e
  | inr text =>
      let content := encode text in
      inr (BaseFileResponse_init (JsonSource content) args (arg_media_type args)
                                 (Some filename) size mtime)
  end.

(** *** Method resolution and [BaseFileResponse.__call__] *)

Definition pre_call : M unit :=
  r <- get_self ;;
  match source r with
  | FileSource path stat => FileResponse_pre_call path stat
  | BytesSource content => BytesFileResponse_pre_call content
  | TextSource content => TextFileResponse_pre_call content
  | JsonSource content => BytesFileResponse_pre_call content
  end.

Definition post_call : M unit := ret tt.

Definition iterate_content (chunk_size : Z) (yield : bytes -> M unit) : M unit :=
  r <- get_self ;;
  match source r with
  | FileSource path _ => FileResponse_iterate_content path chunk_size yield
  | BytesSource content => BytesFileResponse_iterate_content content chunk_size yield
  | TextSource content => TextFileResponse_iterate_content content chunk_size yield
  | JsonSource content => BytesFileResponse_iterate_content content chunk_size yield
  end.

Definition call (scope : Scope) : M unit :=
  pre_call ;;
  r <- get_self ;;
  send (ResponseStart (status_code r) (raw_headers r)) ;;
  (if String.eqb (upper (method scope)) "HEAD" then
     send (ResponseBody [] false)
   else
     iterate_content (chunk_size r)
       (fun chunk =>
          let more_body := len chunk =? chunk_size r in
          send (ResponseBody chunk more_body))) ;;
  post_call ;;
  emit PostCallDone ;;
  match background r with
  | Some task => run_task task
  | None => ret tt
  end.

End Package.

Arguments call {lib} os scope _.
Arguments pre_call {lib} os _.
Arguments JsonFileResponse_init {lib JSON} json_dumps content filename args size mtime.

(** ** Reading the log of an invocation *)

(** A response that has not been invoked yet. *)
Definition fresh (r : Response) : World := mkWorld r 0 [].

(** The messages sent, in order. *)
Fixpoint messages (es : list Event) : list Message :=
  match es with
  | [] => []
  | Sent m :: es' => m :: messages es'
  | _ :: es' => messages es'
  end.

(** The body frames among messages, as (payload, more_body) pairs. *)
Fixpoint body_frames (ms : list Message) : list (bytes * bool) :=
  match ms with
  | [] => []
  | ResponseBody b more :: ms' => (b, more) :: body_frames ms'
  | _ :: ms' => body_frames ms'
  end.

Definition payloads (es : list Event) : bytes :=
  concat (map fst (body_frames (messages es))).

Definition is_pathsend (m : Message) : bool :=
  match m with
  | ResponsePathsend _ => true
  | _ => false
  end.

(** ** An instance for running the model

    [quote] follows the library (every byte outside the letters, the
    digits and [_.-~/] becomes [%XX]); the type table has a few extensions;
    the date, float and digest renderings are symbolic, and [formatdate]
    refuses what the library refuses. *)
Module Demo.

Definition hex_digit (n : nat) : ascii :=
  if (n <? 10)%nat then ascii_of_nat (48 + n) else ascii_of_nat (55 + n).

Definition always_safe (c : ascii) : bool :=
  let n := nat_of_ascii c in
  ((65 <=? n) && (n <=? 90) || (97 <=? n) && (n <=? 122) || (48 <=? n) && (n <=? 57)
   || (n =? 95) || (n =? 46) || (n =? 45) || (n =? 126) || (n =? 47))%nat.

Fixpoint quote (s : string) : string :=
  match s with
  | EmptyString => EmptyString
  | String c s' =>
      if always_safe c then String c (quote s')
      else
        let n := nat_of_ascii c in
        String "%" (String (hex_digit (n / 16)) (String (hex_digit (n mod 16)) (quote s')))
  end.

Fixpoint ends_with_any (name : string) (table : list (string * string)) : option string :=
  match table with
  | [] => None
  | (ext, t) :: table' =>
      let n := String.length name in
      let k := String.length ext in
      if String.eqb (substring (n - k) k name) ext then Some t
      else ends_with_any name table'
  end.

Definition guess_type (name : string) : option string :=
  ends_with_any name
    [(".png", "image/png"); (".txt", "text/plain"); (".json", "application/json")].

(** Timestamps from year 1 to year 9999 have a date; the others, and what
    is not a number, are refused. *)
Definition formatdate (m : float) : exn + string :=
  if negb (PrimFloat.eqb m m) then
    inl (ValueError "cannot convert float NaN to integer")
  else if PrimFloat.eqb (PrimFloat.abs m) PrimFloat.infinity then
    inl (OverflowError "cannot convert float infinity to integer")
  else if PrimFloat.leb (-62135596800)%float m && PrimFloat.leb m 253402300799%float then
    inr (if PrimFloat.eqb m 0%float then "Thu, 01 Jan 1970 00:00:00 GMT"
         else "<http-date>")
  else inl (ValueError "year is out of range").

#[export] Instance lib : Collaborators := {
  quote := quote;
  guess_type := guess_type;
  formatdate := formatdate;
  str_float := fun m => if PrimFloat.eqb m 0%float then "0.0" else "<float>";
  md5_hexdigest := fun b => "md5:" +++ string_of_list_byte b
}.

(** A regular file [/srv/abc] holding the three bytes [abc], a directory
    [/srv], nothing else; the clock reads 12.5, 13.5, then 14.5. *)
Definition abc : bytes := encode "abc".

Definition os : OS := {|
  os_stat := fun path =>
    if String.eqb path "/srv/abc" then
      inr {| st_mode := 33188; st_size := 3; st_mtime := 1700000000%float |}
    else if String.eqb path "/srv" then
      inr {| st_mode := 16877; st_size := 4096; st_mtime := 1700000000%float |}
    else inl (FileNotFoundError path);
  open_rb := fun path =>
    if String.eqb path "/srv/abc" then inr abc
    else if String.eqb path "/srv" then inl (OSError path)
    else inl (FileNotFoundError path);
  monotonic := fun n =>
    match n with
    | O => 12.5%float
    | S O => 13.5%float
    | _ => 14.5%float
    end
|}.

Definition get : Scope := {| method := "GET"; extensions := [] |}.

Definition get_pathsend : Scope :=
  {| method := "get"; extensions := ["http.response.pathsend"] |}.

Definition task : BackgroundTask := ["6"; ", "; "7"].

End Demo.

(** ** Vocabulary of the statements *)

(** The chunks of [text] of width [k], [n] of them. *)
Definition chunks (k n : nat) (text : bytes) : list bytes :=
  map (fun j => firstn k (skipn (j * k) text)) (seq 0 n).

(** The number of chunks [slicer] cuts. *)
Definition chunk_count (text : bytes) (chunk_size : Z) : nat :=
  Z.to_nat ((len text + chunk_size - 1) / chunk_size).

(** The world after some more events. *)
Definition log (w : World) (es : list Event) : World :=
  mkWorld (self w) (ticks w) (out w ++ es).

(** The events of the background task, if there is one. *)
Definition task_events (t : option BackgroundTask) : list Event :=
  match t with
  | Some task => TaskStarted :: map TaskWrote task ++ [TaskFinished]
  | None => []
  end.

(** The body frame [__call__] sends for a chunk. *)
Definition frame (chunk_size : Z) (chunk : bytes) : Event :=
  Sent (ResponseBody chunk (len chunk =? chunk_size)).

(** The start frame of a response. *)
Definition start_frame (r : Response) : Event :=
  Sent (ResponseStart (status_code r) (raw_headers r)).

(** The content of an in-memory response. *)
Definition memory_content (r : Response) : option bytes :=
  match source r with
  | FileSource _ _ => None
  | BytesSource c | TextSource c | JsonSource c => Some c
  end.

(** A header, or a default when it is absent. *)
Definition kept_or (h : Headers) (key value : string) : option string :=
  Some match header_get key h with
       | Some v => v
       | None => value
       end.

(** The header of that name among those the caller passed, names compared
    in lower case as the header container stores them. *)
Definition caller_header (key : string) (headers : option Headers) : option string :=
  match headers with
  | None => None
  | Some hs => header_get key (map (fun kv => (lower (fst kv), snd kv)) hs)
  end.

(** Events of the transfer itself: messages and the file handle. *)
Definition is_transfer (e : Event) : bool :=
  match e with
  | Sent _ | Opened _ | Closed _ => true
  | _ => false
  end.

(** How many times a task was started in a log. *)
Fixpoint task_starts (es : list Event) : nat :=
  match es with
  | [] => O
  | TaskStarted :: es' => S (task_starts es')
  | _ :: es' => task_starts es'
  end.

(** The same response seen as an instance of the JSON class. *)
Definition as_json (r : Response) : Response :=
  mkResponse (match source r with
              | BytesSource c => JsonSource c
              | s => s
              end)
             (status_code r) (media_type r) (background r) (filename r)
             (raw_headers r) (size r) (mtime r) (chunk_size r).

Definition world_as_json (w : World) : World :=
  mkWorld (as_json (self w)) (ticks w) (out w).

Section Vocabulary.

Context {lib : Collaborators}.
Variable os : OS.

(** The modification time the in-memory hook hands to [set_stat_headers],
    and the clock after it: line 199 reads the clock when no mtime was
    given, line 201 reads it when the mtime is absent or zero. *)
Definition header_mtime (m : option float) (t : nat) : float * nat :=
  match m with
  | None => (monotonic os (S t), S (S t))
  | Some x => if truthy_float x then (x, t) else (monotonic os t, S t)
  end.

(** The response with the three identity headers set where they were
    absent, [date] being the date [formatdate] gave for [mtime]. *)
Definition stamped (r : Response) (size : Z) (mtime : float) (date : string)
  : Response :=
  with_headers r
    (setdefault
       (setdefault (setdefault (raw_headers r) "content-length" (str_int size))
                   "last-modified" date)
       "etag" (etag_of size mtime)).

(** The size and modification time the pre-send hook hands to
    [set_stat_headers]: the fresh [os.stat] of a file response built without
    a [stat_result]; for the in-memory classes the size given unless it is
    absent or zero, else the length of the content, and the mtime given
    unless it is absent or zero, else a reading of the clock.  Nothing for a
    file response built with a [stat_result]. *)
Definition hook_identity (w : World) : option (Z * float) :=
  match source (self w) with
  | FileSource path None =>
      match os_stat os path with
      | inr s => Some (st_size s, st_mtime s)
      | inl _ => None
      end
  | FileSource _ (Some _) => None
  | BytesSource c | TextSource c | JsonSource c =>
      Some (or_int (size (self w)) (len c),
            fst (header_mtime (mtime (self w)) (ticks w)))
  end.

(** The size and modification time the hook derives the headers from:
    those it hands to [set_stat_headers], when [formatdate] accepts the
    modification time; nothing when it raises. *)
Definition derived_identity (w : World) : option (Z * float) :=
  match hook_identity w with
  | Some (sz, mt) =>
      match formatdate mt with
      | inr _ => Some (sz, mt)
      | inl _ => None
      end
  | None => None
  end.

(** The file, if the response has one, is a regular file: by the
    [stat_result] given, else by [os.stat]. *)
Definition regular_if_file (w : World) : bool :=
  match source (self w) with
  | FileSource _ (Some s) => S_ISREG (st_mode s)
  | FileSource path None =>
      match os_stat os path with
      | inr s => S_ISREG (st_mode s)
      | inl _ => false
      end
  | _ => true
  end.

(** What the in-memory hooks come to: the clock is read, then the headers
    are set, unless [formatdate] raises. *)
Definition memory_hook (content : bytes) (w : World) : Result unit * World :=
  let sz := or_int (size (self w)) (len content) in
  let mt := fst (header_mtime (mtime (self w)) (ticks w)) in
  let t := snd (header_mtime (mtime (self w)) (ticks w)) in
  match formatdate mt with
  | inr date => (Ok tt, mkWorld (stamped (self w) sz mt date) t (out w))
  | inl e => (Raise e, mkWorld (self w) t (out w))
  end.

(** What [__call__] does between the start frame and the post-send hook. *)
Definition body_of (scope : Scope) (r : Response) : M unit :=
  if String.eqb (upper (method scope)) "HEAD" then
    send (ResponseBody [] false)
  else
    iterate_content os (chunk_size r)
      (fun chunk =>
         let more_body := len chunk =? chunk_size r in
         send (ResponseBody chunk more_body)).

(** The content-disposition value as the claim words it. *)
Definition disposition (mode name : string) : string :=
  if String.eqb (quote name) name then
    mode +++ "; filename=" +++ dquote +++ name +++ dquote
  else
    mode +++ "; filename*=utf-8" +++ squote +++ squote +++ quote name.

End Vocabulary.

(** ** Further vocabulary *)

(** The [more_body] flags of the body frames of a log, in order. *)
Definition more_flags (es : list Event) : list bool :=
  map snd (body_frames (messages es)).

Definition is_body (m : Message) : bool :=
  match m with
  | ResponseBody _ _ => true
  | _ => false
  end.

(** Nothing at all, or a start frame followed by body frames only. *)
Definition start_then_bodies (ms : list Message) : bool :=
  match ms with
  | [] => true
  | ResponseStart _ _ :: rest => forallb is_body rest
  | _ => false
  end.

(** The same response seen as an instance of the text class. *)
Definition as_text (r : Response) : Response :=
  mkResponse (match source r with
              | BytesSource c => TextSource c
              | s => s
              end)
             (status_code r) (media_type r) (background r) (filename r)
             (raw_headers r) (size r) (mtime r) (chunk_size r).

Definition world_as_text (w : World) : World :=
  mkWorld (as_text (self w)) (ticks w) (out w).

(** The operating system with another [os.stat]. *)
Definition with_os_stat (os : OS) (f : string -> exn + stat_result) : OS :=
  {| os_stat := f; open_rb := open_rb os; monotonic := monotonic os |}.

(** * Properties *)

(** ** Chunking *)

Lemma firstn_plus {A : Type} (a b : nat) (l : list A) :
  firstn (a + b) l = firstn a l ++ firstn b (skipn a l).
Proof.
  revert l; induction a as [|a IH]; intros l.
  - reflexivity.
  - destruct l as [|x l]; simpl.
    + now rewrite firstn_nil.
    + now rewrite IH.
Qed.

Lemma concat_chunks (k n : nat) (text : bytes) :
  concat (chunks k n text) = firstn (n * k) text.
Proof.
  unfold chunks; induction n as [|n IH].
  - reflexivity.
  - rewrite seq_S, map_app, concat_app, IH; simpl.
    rewrite app_nil_r, (Nat.add_comm k), firstn_plus; reflexivity.
Qed.

Lemma chunk_count_covers (text : bytes) (chunk_size : Z) :
  0 < chunk_size ->
  (length text <= chunk_count text chunk_size * Z.to_nat chunk_size)%nat.
Proof.
  intros Hpos; unfold chunk_count, len.
  set (l := Z.of_nat (length text)).
  assert (Hl : 0 <= l) by (unfold l; lia).
  pose proof (Z.div_mod (l + chunk_size - 1) chunk_size ltac:(lia)) as Hdm.
  pose proof (Z.mod_pos_bound (l + chunk_size - 1) chunk_size Hpos) as Hmod.
  assert (Hq : 0 <= (l + chunk_size - 1) / chunk_size)
    by (apply Z.div_pos; lia).
  apply Nat2Z.inj_le; rewrite Nat2Z.inj_mul, !Z2Nat.id by lia.
  fold l; nia.
Qed.

Lemma chunk_index_inside (text : bytes) (chunk_size : Z) (j : nat) :
  0 < chunk_size ->
  (j < chunk_count text chunk_size)%nat ->
  Z.of_nat j * chunk_size < len text.
Proof.
  intros Hpos Hj; unfold chunk_count in Hj.
  pose proof (Z.mul_div_le (len text + chunk_size - 1) chunk_size Hpos) as Hle.
  assert (Hq : 0 <= (len text + chunk_size - 1) / chunk_size)
    by (apply Z.div_pos; unfold len; lia).
  apply Nat2Z.inj_lt in Hj; rewrite Z2Nat.id in Hj by lia.
  nia.
Qed.

Lemma slice_chunk (text : bytes) (chunk_size : Z) (j : nat) :
  0 < chunk_size ->
  Z.of_nat j * chunk_size < len text ->
  slice text (0 + Z.of_nat j * chunk_size) (0 + Z.of_nat j * chunk_size + chunk_size)
  = firstn (Z.to_nat chunk_size) (skipn (j * Z.to_nat chunk_size) text).
Proof.
  intros Hpos Hin; unfold slice, clamp_index.
  set (a := Z.of_nat j * chunk_size) in *.
  assert (Ha : 0 <= a) by (unfold a; lia).
  replace (0 + a <? 0) with false by (symmetry; apply Z.ltb_ge; lia).
  replace (0 + a + chunk_size <? 0) with false by (symmetry; apply Z.ltb_ge; lia).
  replace (Z.to_nat (Z.min (0 + a) (len text))) with (j * Z.to_nat chunk_size)%nat
    by (unfold a; lia).
  destruct (Z.le_gt_cases (a + chunk_size) (len text)) as [Hfull | Hshort].
  - f_equal; lia.
  - rewrite !firstn_all2; try reflexivity; rewrite length_skipn; unfold len in *; lia.
Qed.

(** For a positive threshold [slicer] returns the chunks of that width. *)
Lemma slicer_chunks (text : bytes) (chunk_size : Z) :
  0 < chunk_size ->
  slicer text chunk_size
  = inr (chunks (Z.to_nat chunk_size) (chunk_count text chunk_size) text).
Proof.
  intros Hpos; unfold slicer, range, chunks.
  replace (chunk_size =? 0) with false by (symmetry; apply Z.eqb_neq; lia).
  replace (0 <? chunk_size) with true by (symmetry; apply Z.ltb_lt; lia).
  rewrite Z.sub_0_r; fold (chunk_count text chunk_size).
  f_equal; rewrite map_map; apply map_ext_in; intros j Hj.
  apply in_seq in Hj; apply slice_chunk; [assumption|].
  apply chunk_index_inside; [assumption | lia].
Qed.

(** Its chunks, put together again, are the text. *)
Lemma slicer_concat (text : bytes) (chunk_size : Z) :
  0 < chunk_size ->
  exists cs, slicer text chunk_size = inr cs /\ concat cs = text.
Proof.
  intros Hpos; eexists; split; [apply slicer_chunks; assumption|].
  rewrite concat_chunks; apply firstn_all2, chunk_count_covers; assumption.
Qed.

(** ** Running the monad *)

Lemma log_nil (w : World) : log w [] = w.
Proof. destruct w; unfold log; simpl; now rewrite app_nil_r. Qed.

Lemma log_log (w : World) (es es' : list Event) :
  log (log w es) es' = log w (es ++ es').
Proof. unfold log; simpl; now rewrite app_assoc. Qed.

Lemma emit_log (e : Event) (w : World) : emit e w = (Ok tt, log w [e]).
Proof. reflexivity. Qed.

Lemma for_each_emit {A : Type} (f : A -> Event) (xs : list A) (w : World) :
  for_each xs (fun x => emit (f x)) w = (Ok tt, log w (map f xs)).
Proof.
  revert w; induction xs as [|x xs IH]; intros w; simpl.
  - now rewrite log_nil.
  - unfold bind; rewrite emit_log, IH, log_log; reflexivity.
Qed.

Lemma run_task_log (t : BackgroundTask) (w : World) :
  run_task t w = (Ok tt, log w (task_events (Some t))).
Proof.
  unfold run_task, bind; rewrite emit_log, for_each_emit, emit_log, !log_log.
  reflexivity.
Qed.

Lemma finish_log (r : Response) (w : World) :
  (post_call ;; emit PostCallDone ;;
   match background r with
   | Some task => run_task task
   | None => ret tt
   end) w
  = (Ok tt, log w (PostCallDone :: task_events (background r))).
Proof.
  unfold bind, post_call, ret; rewrite emit_log.
  destruct (background r) as [t|]; simpl.
  - rewrite run_task_log, log_log; reflexivity.
  - reflexivity.
Qed.

(** ** The pre-send hook *)

Section Hooks.

Context {lib : Collaborators}.
Variable os : OS.

Lemma set_stat_headers_ok (r : Response) (sz : Z) (mt : float) (date : string) :
  formatdate mt = inr date ->
  set_stat_headers r sz mt = inr (stamped r sz mt date).
Proof. intros H; unfold set_stat_headers, stamped; now rewrite H. Qed.

Lemma set_stat_headers_raises (r : Response) (sz : Z) (mt : float) (e : exn) :
  formatdate mt = inl e ->
  set_stat_headers r sz mt = inl e.
Proof. intros H; unfold set_stat_headers; now rewrite H. Qed.

Lemma BytesFileResponse_pre_call_run (content : bytes) (w : World) :
  BytesFileResponse_pre_call os content w = memory_hook os content w.
Proof.
  unfold BytesFileResponse_pre_call, memory_hook, bind, get_self, header_mtime,
    or_monotonic, self_set_stat_headers, set_stat_headers, stamped.
  destruct w as [r t o]; simpl.
  destruct (mtime r) as [m|]; simpl; [destruct (truthy_float m); simpl|];
    match goal with
    | |- context [formatdate ?x] => destruct (formatdate x)
    end; reflexivity.
Qed.

Lemma TextFileResponse_pre_call_run (content : bytes) (w : World) :
  TextFileResponse_pre_call os content w = memory_hook os content w.
Proof.
  unfold TextFileResponse_pre_call, memory_hook, bind, get_self, header_mtime,
    or_monotonic, self_set_stat_headers, set_stat_headers, stamped.
  destruct w as [r t o]; simpl.
  destruct (mtime r) as [m|]; simpl; [destruct (truthy_float m); simpl|];
    match goal with
    | |- context [formatdate ?x] => destruct (formatdate x)
    end; reflexivity.
Qed.

Lemma pre_call_memory (content : bytes) (w : World) :
  memory_content (self w) = Some content ->
  pre_call os w = memory_hook os content w.
Proof.
  unfold memory_content, pre_call, bind, get_self; simpl.
  destruct (source (self w)) as [p s|c|c|c]; intros H; inversion H; subst.
  - apply BytesFileResponse_pre_call_run.
  - apply TextFileResponse_pre_call_run.
  - apply BytesFileResponse_pre_call_run.
Qed.

Lemma pre_call_memory_ok (content : bytes) (w : World) (date : string) :
  memory_content (self w) = Some content ->
  formatdate (fst (header_mtime os (mtime (self w)) (ticks w))) = inr date ->
  pre_call os w
  = (Ok tt,
     mkWorld (stamped (self w) (or_int (size (self w)) (len content))
                      (fst (header_mtime os (mtime (self w)) (ticks w))) date)
             (snd (header_mtime os (mtime (self w)) (ticks w)))
             (out w)).
Proof.
  intros Hmem Hdate; rewrite (pre_call_memory content w Hmem); unfold memory_hook.
  cbv zeta; now rewrite Hdate.
Qed.

(** The hook of a file response, case by case. *)
Lemma pre_call_file (path : string) (stat : option stat_result) (w : World) :
  source (self w) = FileSource path stat ->
  pre_call os w =
  match stat with
  | Some s =>
      if S_ISREG (st_mode s) then (Ok tt, w)
      else (Raise (RuntimeError ("File at path " +++ path +++ " is not a file.")), w)
  | None =>
      match os_stat os path with
      | inr s =>
          match formatdate (st_mtime s) with
          | inr date =>
              let w1 := mkWorld (stamped (self w) (st_size s) (st_mtime s) date)
                                (ticks w) (out w) in
              if S_ISREG (st_mode s) then (Ok tt, w1)
              else (Raise (RuntimeError ("File at path " +++ path +++ " is not a file.")),
                    w1)
          | inl (FileNotFoundError _) =>
              (Raise (RuntimeError ("File at path " +++ path +++ " does not exist.")), w)
          | inl e => (Raise e, w)
          end
      | inl (FileNotFoundError _) =>
          (Raise (RuntimeError ("File at path " +++ path +++ " does not exist.")), w)
      | inl e => (Raise e, w)
      end
  end.
Proof.
  intros Hsrc; unfold pre_call, bind, get_self; simpl; rewrite Hsrc.
  unfold FileResponse_pre_call, bind, ret, raise, try_except, self_set_stat_headers,
    set_stat_headers, stamped.
  destruct stat as [s|].
  - destruct (S_ISREG (st_mode s)); reflexivity.
  - destruct (os_stat os path) as [e|s].
    + destruct e; reflexivity.
    + simpl; destruct (formatdate (st_mtime s)) as [e|date].
      * destruct e; reflexivity.
      * simpl; destruct (S_ISREG (st_mode s)); reflexivity.
Qed.

(** The hook sends nothing and touches nothing but the headers. *)
Lemma pre_call_keeps (w w1 : World) (res : Result unit) :
  pre_call os w = (res, w1) ->
  out w1 = out w /\ exists h, self w1 = with_headers (self w) h.
Proof.
  assert (Hid : self w = with_headers (self w) (raw_headers (self w)))
    by (destruct (self w); reflexivity).
  destruct (source (self w)) as [p s|c|c|c] eqn:Hsrc.
  - rewrite (pre_call_file p s w Hsrc).
    destruct s as [s|]; [|destruct (os_stat os p) as [e|s]].
    + destruct (S_ISREG (st_mode s)); intros H; inversion H; subst; eauto.
    + destruct e; intros H; inversion H; subst; eauto.
    + destruct (formatdate (st_mtime s)) as [e|date].
      * destruct e; intros H; inversion H; subst; eauto.
      * cbv zeta; destruct (S_ISREG (st_mode s)); intros H; inversion H; subst; simpl;
          (split; [reflexivity | eexists; reflexivity]).
  - rewrite (pre_call_memory c w) by (unfold memory_content; now rewrite Hsrc).
    unfold memory_hook; cbv zeta; destruct (formatdate _);
      intros H; inversion H; subst; simpl; split; eauto; eexists; reflexivity.
  - rewrite (pre_call_memory c w) by (unfold memory_content; now rewrite Hsrc).
    unfold memory_hook; cbv zeta; destruct (formatdate _);
      intros H; inversion H; subst; simpl; split; eauto; eexists; reflexivity.
  - rewrite (pre_call_memory c w) by (unfold memory_content; now rewrite Hsrc).
    unfold memory_hook; cbv zeta; destruct (formatdate _);
      intros H; inversion H; subst; simpl; split; eauto; eexists; reflexivity.
Qed.

(** When the hook derives a size and an mtime it sets the headers from
    them, whatever it does next. *)
Lemma pre_call_derives (w : World) (sz : Z) (mt : float) :
  derived_identity os w = Some (sz, mt) ->
  exists date,
    formatdate mt = inr date
    /\ self (snd (pre_call os w)) = stamped (self w) sz mt date
    /\ out (snd (pre_call os w)) = out w
    /\ (regular_if_file os w = true -> fst (pre_call os w) = Ok tt).
Proof.
  unfold derived_identity, hook_identity, regular_if_file; intros Hid.
  destruct (source (self w)) as [p s|c|c|c] eqn:Hsrc.
  - destruct s as [s|]; [discriminate|].
    rewrite (pre_call_file p None w Hsrc).
    destruct (os_stat os p) as [e|s]; [discriminate|].
    destruct (formatdate (st_mtime s)) as [e|date] eqn:Hdate; [discriminate|].
    inversion Hid; subst; exists date; cbv zeta.
    destruct (S_ISREG (st_mode s)); repeat split; auto; discriminate.
  - rewrite (pre_call_memory c w) by (unfold memory_content; now rewrite Hsrc).
    unfold memory_hook; cbv zeta.
    destruct (formatdate _) as [e|date] eqn:Hdate; [discriminate|].
    inversion Hid; subst; exists date; repeat split; auto.
  - rewrite (pre_call_memory c w) by (unfold memory_content; now rewrite Hsrc).
    unfold memory_hook; cbv zeta.
    destruct (formatdate _) as [e|date] eqn:Hdate; [discriminate|].
    inversion Hid; subst; exists date; repeat split; auto.
  - rewrite (pre_call_memory c w) by (unfold memory_content; now rewrite Hsrc).
    unfold memory_hook; cbv zeta.
    destruct (formatdate _) as [e|date] eqn:Hdate; [discriminate|].
    inversion Hid; subst; exists date; repeat split; auto.
Qed.

(** When the hook of an in-memory response passes, it has derived a size
    and an mtime. *)
Lemma pre_call_memory_passes (content : bytes) (w w1 : World) :
  memory_content (self w) = Some content ->
  pre_call os w = (Ok tt, w1) ->
  exists date,
    formatdate (fst (header_mtime os (mtime (self w)) (ticks w))) = inr date
    /\ w1 = mkWorld (stamped (self w) (or_int (size (self w)) (len content))
                             (fst (header_mtime os (mtime (self w)) (ticks w))) date)
                    (snd (header_mtime os (mtime (self w)) (ticks w)))
                    (out w).
Proof.
  intros Hmem; rewrite (pre_call_memory content w Hmem); unfold memory_hook; cbv zeta.
  destruct (formatdate _) as [e|date]; intros H; inversion H; eauto.
Qed.

End Hooks.

(** ** One invocation, path by path *)

Section Invocation.

Context {lib : Collaborators}.
Variable os : OS.

Lemma call_pre_call_raises (scope : Scope) (w w1 : World) (e : exn) :
  pre_call os w = (Raise e, w1) ->
  call os scope w = (Raise e, w1).
Proof. intros H; unfold call, bind; now rewrite H. Qed.

Lemma call_body_raises (scope : Scope) (w w1 w2 : World) (e : exn) :
  pre_call os w = (Ok tt, w1) ->
  body_of os scope (self w1) (log w1 [start_frame (self w1)]) = (Raise e, w2) ->
  call os scope w = (Raise e, w2).
Proof.
  intros Hpre Hbody; unfold call, bind at 1; rewrite Hpre.
  unfold bind at 1, get_self; unfold bind at 1, send; rewrite emit_log.
  unfold bind at 1; fold (start_frame (self w1)).
  unfold body_of, send in Hbody; rewrite Hbody; reflexivity.
Qed.

Lemma call_body_returns (scope : Scope) (w w1 : World) (es : list Event) :
  pre_call os w = (Ok tt, w1) ->
  body_of os scope (self w1) (log w1 [start_frame (self w1)])
  = (Ok tt, log w1 (start_frame (self w1) :: es)) ->
  call os scope w
  = (Ok tt, log w1 (start_frame (self w1) :: es
                    ++ PostCallDone :: task_events (background (self w1)))).
Proof.
  intros Hpre Hbody; unfold call, bind at 1; rewrite Hpre.
  unfold bind at 1, get_self; unfold bind at 1, send; rewrite emit_log.
  unfold bind at 1; fold (start_frame (self w1)).
  unfold body_of, send in Hbody; rewrite Hbody.
  rewrite finish_log, log_log; reflexivity.
Qed.

(** HEAD: one empty, final body frame. *)
Lemma call_head (scope : Scope) (w w1 : World) :
  pre_call os w = (Ok tt, w1) ->
  upper (method scope) = "HEAD" ->
  call os scope w
  = (Ok tt, log w1 ([start_frame (self w1); Sent (ResponseBody [] false); PostCallDone]
                    ++ task_events (background (self w1)))).
Proof.
  intros Hpre Hhead.
  apply (call_body_returns scope w w1 [Sent (ResponseBody [] false)] Hpre).
  unfold body_of; rewrite Hhead; simpl.
  unfold send; rewrite emit_log, log_log; reflexivity.
Qed.

(** An in-memory response and another method: a frame per chunk of
    [slicer], or its exception once the start frame is out. *)
Lemma call_memory_chunks (scope : Scope) (w w1 : World) (content : bytes)
  (cs : list bytes) :
  pre_call os w = (Ok tt, w1) ->
  upper (method scope) <> "HEAD" ->
  memory_content (self w1) = Some content ->
  slicer content (chunk_size (self w1)) = inr cs ->
  call os scope w
  = (Ok tt,
     log w1 (start_frame (self w1)
             :: map (frame (chunk_size (self w1))) cs
             ++ PostCallDone :: task_events (background (self w1)))).
Proof.
  intros Hpre Hmethod Hmem Hcs.
  apply (call_body_returns scope w w1 _ Hpre).
  unfold body_of; apply String.eqb_neq in Hmethod; rewrite Hmethod.
  unfold iterate_content, bind, get_self; simpl.
  unfold memory_content in Hmem.
  destruct (source (self w1)) as [p s|c|c|c]; inversion Hmem; subst;
    unfold BytesFileResponse_iterate_content, TextFileResponse_iterate_content;
    rewrite Hcs;
    unfold send; rewrite (for_each_emit (frame (chunk_size (self w1)))), log_log;
    reflexivity.
Qed.

Lemma call_memory_slicer_raises (scope : Scope) (w w1 : World) (content : bytes)
  (e : exn) :
  pre_call os w = (Ok tt, w1) ->
  upper (method scope) <> "HEAD" ->
  memory_content (self w1) = Some content ->
  slicer content (chunk_size (self w1)) = inl e ->
  call os scope w = (Raise e, log w1 [start_frame (self w1)]).
Proof.
  intros Hpre Hmethod Hmem Hcs.
  apply (call_body_raises scope w w1 _ e Hpre).
  unfold body_of; apply String.eqb_neq in Hmethod; rewrite Hmethod.
  unfold iterate_content, bind, get_self; simpl.
  unfold memory_content in Hmem.
  destruct (source (self w1)) as [p s|c|c|c]; inversion Hmem; subst;
    unfold BytesFileResponse_iterate_content, TextFileResponse_iterate_content;
    rewrite Hcs; reflexivity.
Qed.

Lemma call_memory (scope : Scope) (w w1 : World) (content : bytes) :
  pre_call os w = (Ok tt, w1) ->
  upper (method scope) <> "HEAD" ->
  memory_content (self w1) = Some content ->
  0 < chunk_size (self w1) ->
  call os scope w
  = (Ok tt,
     log w1 (start_frame (self w1)
             :: map (frame (chunk_size (self w1)))
                    (chunks (Z.to_nat (chunk_size (self w1)))
                            (chunk_count content (chunk_size (self w1))) content)
             ++ PostCallDone :: task_events (background (self w1)))).
Proof.
  intros Hpre Hmethod Hmem Hpos.
  apply (call_memory_chunks scope w w1 content _ Hpre Hmethod Hmem).
  apply slicer_chunks; assumption.
Qed.

(** A file response and another method: the file is opened, read once,
    and closed. *)
Lemma call_file (scope : Scope) (w w1 : World) (path : string)
  (stat : option stat_result) (file : bytes) :
  pre_call os w = (Ok tt, w1) ->
  upper (method scope) <> "HEAD" ->
  source (self w1) = FileSource path stat ->
  open_rb os path = inr file ->
  call os scope w
  = (Ok tt,
     log w1 (start_frame (self w1)
             :: [Opened path;
                 frame (chunk_size (self w1)) (read file (chunk_size (self w1)));
                 Closed path]
             ++ PostCallDone :: task_events (background (self w1)))).
Proof.
  intros Hpre Hmethod Hsrc Hopen.
  apply (call_body_returns scope w w1 _ Hpre).
  unfold body_of; apply String.eqb_neq in Hmethod; rewrite Hmethod.
  unfold iterate_content, bind, get_self; simpl; rewrite Hsrc.
  unfold FileResponse_iterate_content; rewrite Hopen.
  unfold bind, send; rewrite !emit_log, !log_log; reflexivity.
Qed.

Lemma call_file_cannot_open (scope : Scope) (w w1 : World) (path : string)
  (stat : option stat_result) (e : exn) :
  pre_call os w = (Ok tt, w1) ->
  upper (method scope) <> "HEAD" ->
  source (self w1) = FileSource path stat ->
  open_rb os path = inl e ->
  call os scope w = (Raise e, log w1 [start_frame (self w1)]).
Proof.
  intros Hpre Hmethod Hsrc Hopen.
  apply (call_body_raises scope w w1 _ e Hpre).
  unfold body_of; apply String.eqb_neq in Hmethod; rewrite Hmethod.
  unfold iterate_content, bind, get_self; simpl; rewrite Hsrc.
  unfold FileResponse_iterate_content; rewrite Hopen; reflexivity.
Qed.

End Invocation.

(** ** Looking headers up *)

Lemma header_get_app (key : string) (h h' : Headers) :
  header_get key (h ++ h')
  = match header_get key h with
    | Some v => Some v
    | None => header_get key h'
    end.
Proof.
  induction h as [|[k v] h IH]; simpl; [reflexivity|].
  destruct (String.eqb k key); [reflexivity | exact IH].
Qed.

(** After [setdefault] the name has the value it had, or else the new one. *)
Lemma header_get_setdefault (h : Headers) (key value : string) :
  header_get (lower key) (setdefault h key value)
  = Some match header_get (lower key) h with
         | Some v => v
         | None => value
         end.
Proof.
  unfold setdefault; destruct (header_get (lower key) h) as [v|] eqn:Hget.
  - exact Hget.
  - rewrite header_get_app, Hget; simpl; now rewrite String.eqb_refl.
Qed.

(** Other names are not affected. *)
Lemma header_get_setdefault_other (h : Headers) (key value other : string) :
  lower key <> other ->
  header_get other (setdefault h key value) = header_get other h.
Proof.
  intros Hne; unfold setdefault; destruct (header_get (lower key) h) as [v|].
  - reflexivity.
  - rewrite header_get_app; destruct (header_get other h); [reflexivity|].
    simpl; apply String.eqb_neq in Hne; now rewrite Hne.
Qed.

Lemma stamped_get {lib : Collaborators} (r : Response) (size : Z) (mtime : float)
  (date : string) :
  let h := raw_headers r in
  let h' := raw_headers (stamped r size mtime date) in
  header_get "content-length" h' = kept_or h "content-length" (str_int size)
  /\ header_get "last-modified" h' = kept_or h "last-modified" date
  /\ header_get "etag" h' = kept_or h "etag" (etag_of size mtime).
Proof.
  unfold stamped, kept_or; simpl; repeat split.
  - rewrite !header_get_setdefault_other by (simpl; discriminate).
    apply (header_get_setdefault _ "content-length").
  - rewrite header_get_setdefault_other by (simpl; discriminate).
    rewrite (header_get_setdefault _ "last-modified").
    rewrite header_get_setdefault_other by (simpl; discriminate); reflexivity.
  - rewrite (header_get_setdefault _ "etag").
    rewrite !header_get_setdefault_other by (simpl; discriminate); reflexivity.
Qed.

(** ** Reading payloads off a log *)

Lemma messages_app (es es' : list Event) :
  messages (es ++ es') = messages es ++ messages es'.
Proof.
  induction es as [|e es IH]; simpl; [reflexivity|].
  destruct e; simpl; now rewrite ?IH.
Qed.

Lemma body_frames_app (ms ms' : list Message) :
  body_frames (ms ++ ms') = body_frames ms ++ body_frames ms'.
Proof.
  induction ms as [|m ms IH]; simpl; [reflexivity|].
  destruct m; simpl; now rewrite ?IH.
Qed.

Lemma messages_task_events (t : option BackgroundTask) :
  messages (task_events t) = [].
Proof.
  destruct t as [t|]; simpl; [|reflexivity].
  rewrite messages_app; simpl; rewrite app_nil_r.
  induction t as [|v t IH]; simpl; auto.
Qed.

Lemma body_frames_frames (chunk_size : Z) (cs : list bytes) :
  body_frames (messages (map (frame chunk_size) cs))
  = map (fun c => (c, len c =? chunk_size)) cs.
Proof. induction cs as [|c cs IH]; simpl; [reflexivity | now rewrite IH]. Qed.

(** The payloads of a streamed in-memory body. *)
Lemma payloads_stream (start : Event) (chunk_size : Z) (cs : list bytes)
  (t : option BackgroundTask) (status : Z) (h : Headers) :
  start = Sent (ResponseStart status h) ->
  payloads (start :: map (frame chunk_size) cs ++ PostCallDone :: task_events t)
  = concat cs.
Proof.
  intros ->; unfold payloads; simpl.
  rewrite messages_app; simpl; rewrite messages_task_events, app_nil_r.
  rewrite body_frames_frames, map_map; simpl; now rewrite map_id.
Qed.

Section Bodies.

Context {lib : Collaborators}.
Variable os : OS.

(** Supporting fact for the in-memory classes: with a positive threshold
    and a method other than HEAD, when the pre-send hook passes, the payloads
    of a fresh response add up to its content. *)
Lemma memory_payloads (scope : Scope) (r : Response) (content : bytes) (w1 : World) :
  memory_content r = Some content ->
  pre_call os (fresh r) = (Ok tt, w1) ->
  0 < chunk_size r ->
  upper (method scope) <> "HEAD" ->
  fst (call os scope (fresh r)) = Ok tt
  /\ payloads (out (snd (call os scope (fresh r)))) = content.
Proof.
  intros Hmem Hpre Hpos Hmethod.
  destruct (pre_call_keeps os _ _ _ Hpre) as [Hout [h Hself]].
  assert (Hmem1 : memory_content (self w1) = Some content)
    by (rewrite Hself; exact Hmem).
  assert (Hpos1 : 0 < chunk_size (self w1)) by (rewrite Hself; exact Hpos).
  rewrite (call_memory os scope _ _ content Hpre Hmethod Hmem1 Hpos1).
  split; [reflexivity|]; simpl; rewrite Hout; simpl.
  erewrite payloads_stream by reflexivity.
  rewrite concat_chunks; apply firstn_all2, chunk_count_covers; exact Hpos1.
Qed.

(** Supporting fact for the file class: the only payload is the first
    [read] of the file. *)
Lemma file_payloads (scope : Scope) (r : Response) (path : string)
  (stat : option stat_result) (file : bytes) (w1 : World) :
  source r = FileSource path stat ->
  pre_call os (fresh r) = (Ok tt, w1) ->
  open_rb os path = inr file ->
  upper (method scope) <> "HEAD" ->
  fst (call os scope (fresh r)) = Ok tt
  /\ body_frames (messages (out (snd (call os scope (fresh r)))))
     = [(read file (chunk_size r), len (read file (chunk_size r)) =? chunk_size r)].
Proof.
  intros Hsrc Hpre Hopen Hmethod.
  destruct (pre_call_keeps os _ _ _ Hpre) as [Hout [h Hself]].
  assert (Hsrc1 : source (self w1) = FileSource path stat)
    by (rewrite Hself; exact Hsrc).
  rewrite (call_file os scope _ _ path stat file Hpre Hmethod Hsrc1 Hopen).
  split; [reflexivity|]; simpl; rewrite Hout; simpl.
  rewrite messages_task_events; simpl.
  rewrite Hself; reflexivity.
Qed.

End Bodies.

(** ** The claims

    Statements about a concrete run use the library instance and the
    operating system of [Demo]. *)

#[local] Existing Instance Demo.lib.

(** C1 (fails on the file class).  A file response whose file holds the three
    bytes [abc], with a chunk threshold of 2 and a GET request: the call
    returns, having sent a single body frame with the first two bytes, so
    that the payloads do not add up to the content of the file. *)
Theorem C1_file_response_reads_once :
  let r := with_chunk_size
             (FileResponse_init "/srv/abc" default_args (Some "example.png") None) 2 in
  let result := call Demo.os Demo.get (fresh r) in
  open_rb Demo.os "/srv/abc" = inr (encode "abc")
  /\ fst result = Ok tt
  /\ body_frames (messages (out (snd result))) = [(encode "ab", true)]
  /\ payloads (out (snd result)) = encode "ab"
  /\ payloads (out (snd result)) <> encode "abc".
Proof.
  vm_compute; repeat split; discriminate.
Qed.

(** C2 (fails when the length is a multiple of the threshold).  A bytes
    response with the two bytes [ab] and a chunk threshold of 2, GET: the only
    body frame is the full chunk with [more_body] set, and no empty final frame
    follows.  With no content at all, no body frame is sent.  A file response
    whose three-byte file is read with a threshold of 3 sends the one full
    frame with [more_body] set and stops. *)
Theorem C2_no_final_frame_on_exact_multiple :
  let bytes_response :=
    with_chunk_size
      (BytesFileResponse_init (encode "ab") "example.png" default_args None None) 2 in
  let empty_response :=
    BytesFileResponse_init [] "example.png" default_args None None in
  let file_response :=
    with_chunk_size
      (FileResponse_init "/srv/abc" default_args (Some "example.png") None) 3 in
  let frames r := body_frames (messages (out (snd (call Demo.os Demo.get (fresh r))))) in
  frames bytes_response = [(encode "ab", true)]
  /\ fst (call Demo.os Demo.get (fresh bytes_response)) = Ok tt
  /\ frames empty_response = []
  /\ fst (call Demo.os Demo.get (fresh empty_response)) = Ok tt
  /\ frames file_response = [(encode "abc", true)]
  /\ fst (call Demo.os Demo.get (fresh file_response)) = Ok tt.
Proof.
  vm_compute; repeat split.
Qed.

(** C3, as stated, fails.  A bytes response built with [size=0] for four
    bytes of content and no content-length of the caller's gets the
    content-length [4], not the decimal string of the size that was
    supplied; and a file response built with a precomputed [stat_result]
    passes the hook with none of the three headers. *)
Lemma C3_identity_headers_counterexample :
  let r := BytesFileResponse_init (encode "abcd") "a.txt" default_args (Some 0) None in
  let stat := {| st_mode := 33188; st_size := 3; st_mtime := 1700000000%float |} in
  let f := FileResponse_init "/srv/abc" default_args (Some "example.png") (Some stat) in
  let after r := raw_headers (self (snd (pre_call Demo.os (fresh r)))) in
  (size r = Some 0
   /\ header_get "content-length" (raw_headers r) = None
   /\ header_get "content-length" (after r) = Some "4"
   /\ header_get "content-length" (after r) <> Some (str_int 0))
  /\ (fst (pre_call Demo.os (fresh f)) = Ok tt
      /\ header_get "content-length" (after f) = None
      /\ header_get "last-modified" (after f) = None
      /\ header_get "etag" (after f) = None).
Proof.
  vm_compute; repeat split; discriminate.
Qed.

Section IdentityHeaders.

Context {lib : Collaborators}.
Variable os : OS.

(** C3, amended.  Whenever the hook derives a size and an mtime (so
    [formatdate] has a date for the mtime), each of content-length,
    last-modified and etag afterwards holds the value it had before the
    hook, if it had one, and otherwise the decimal size, the date of the
    mtime, and the quoted digest of mtime-size. *)
Theorem C3_identity_headers_set_if_absent (w : World) (sz : Z) (mt : float) :
  derived_identity os w = Some (sz, mt) ->
  let h := raw_headers (self w) in
  let h' := raw_headers (self (snd (pre_call os w))) in
  exists date,
    formatdate mt = inr date
    /\ header_get "content-length" h' = kept_or h "content-length" (str_int sz)
    /\ header_get "last-modified" h' = kept_or h "last-modified" date
    /\ header_get "etag" h' = kept_or h "etag" (etag_of sz mt).
Proof.
  intros Hid; destruct (pre_call_derives os w sz mt Hid) as [date [Hdate [Hself _]]].
  exists date; split; [exact Hdate|].
  cbv zeta; rewrite Hself; apply stamped_get.
Qed.

(** C10.  In the hook of the bytes and text classes a size of zero and an
    mtime of zero count as not given: when the hook passes, the
    content-length is the length of the content, and last-modified and etag
    come from the next reading of the clock (the only one the hook takes in
    that case). *)
Theorem C10_zero_size_and_mtime_fall_back (w : World) (content : bytes) :
  source (self w) = BytesSource content \/ source (self w) = TextSource content ->
  fst (pre_call os w) = Ok tt ->
  let h := raw_headers (self w) in
  let w1 := snd (pre_call os w) in
  let h' := raw_headers (self w1) in
  (size (self w) = Some 0 ->
   header_get "content-length" h = None ->
   header_get "content-length" h' = Some (str_int (len content)))
  /\ (forall m,
        mtime (self w) = Some m ->
        truthy_float m = false ->
        let now := monotonic os (ticks w) in
        ticks w1 = S (ticks w)
        /\ exists date,
             formatdate now = inr date
             /\ (header_get "last-modified" h = None ->
                 header_get "last-modified" h' = Some date)
             /\ (header_get "etag" h = None ->
                 header_get "etag" h'
                 = Some (etag_of (or_int (size (self w)) (len content)) now))).
Proof.
  intros Hsrc Hok.
  assert (Hmem : memory_content (self w) = Some content)
    by (unfold memory_content; destruct Hsrc as [-> | ->]; reflexivity).
  destruct (pre_call os w) as [res w1] eqn:Hpre; cbn [fst] in Hok; subst res.
  destruct (pre_call_memory_passes os content w w1 Hmem Hpre) as [date [Hdate Hw1]].
  cbv zeta; cbn [snd]; rewrite Hw1; cbn [self ticks].
  pose proof (stamped_get (self w) (or_int (size (self w)) (len content))
                (fst (header_mtime os (mtime (self w)) (ticks w))) date) as Hget.
  cbv zeta in Hget; destruct Hget as [Hlen [Hmod Hetag]].
  split.
  - intros Hsize Habsent; rewrite Hlen; unfold kept_or; rewrite Habsent, Hsize.
    reflexivity.
  - intros m Hm Hfalsy.
    unfold header_mtime in Hdate, Hmod, Hetag |- *.
    rewrite Hm in Hdate, Hmod, Hetag |- *; rewrite Hfalsy in Hdate, Hmod, Hetag |- *.
    cbn [fst snd] in Hdate, Hmod, Hetag |- *.
    split; [reflexivity|]; exists date; split; [exact Hdate|]; split; intros Habsent.
    + rewrite Hmod; unfold kept_or; now rewrite Habsent.
    + rewrite Hetag; unfold kept_or; now rewrite Habsent.
Qed.

End IdentityHeaders.

(** C3, amended, on a bytes response built with [size=7] and no mtime: the
    clock is read twice and the second reading dates the headers. *)
Lemma C3_identity_headers_witness :
  let r := BytesFileResponse_init (encode "abcd") "a.txt" default_args (Some 7) None in
  let h := raw_headers r in
  let h' := raw_headers (self (snd (pre_call Demo.os (fresh r)))) in
  derived_identity Demo.os (fresh r) = Some (7, 13.5%float)
  /\ exists date,
       formatdate 13.5%float = inr date
       /\ header_get "content-length" h' = kept_or h "content-length" (str_int 7)
       /\ header_get "last-modified" h' = kept_or h "last-modified" date
       /\ header_get "etag" h' = kept_or h "etag" (etag_of 7 13.5%float).
Proof.
  split; [reflexivity|].
  apply (C3_identity_headers_set_if_absent Demo.os
           (fresh (BytesFileResponse_init (encode "abcd") "a.txt" default_args
                                          (Some 7) None))
           7 13.5%float).
  reflexivity.
Defined.

(** C10 on a text response built with [size=0] and [mtime=0.0]. *)
Lemma C10_zero_size_and_mtime_witness :
  let r := TextFileResponse_init "abcd" "a.txt" default_args (Some 0) (Some 0%float) in
  let h' := raw_headers (self (snd (pre_call Demo.os (fresh r)))) in
  fst (pre_call Demo.os (fresh r)) = Ok tt
  /\ header_get "content-length" h' = Some (str_int 4)
  /\ exists date,
       formatdate 12.5%float = inr date
       /\ header_get "last-modified" h' = Some date
       /\ header_get "etag" h' = Some (etag_of 4 12.5%float).
Proof.
  assert (Hok : fst (pre_call Demo.os
                       (fresh (TextFileResponse_init "abcd" "a.txt" default_args
                                                     (Some 0) (Some 0%float))))
                = Ok tt) by (vm_compute; reflexivity).
  split; [exact Hok|].
  pose proof (C10_zero_size_and_mtime_fall_back Demo.os
                (fresh (TextFileResponse_init "abcd" "a.txt" default_args
                                              (Some 0) (Some 0%float)))
                (encode "abcd") (or_intror eq_refl) Hok) as [Hsize Hmtime].
  split; [exact (Hsize eq_refl eq_refl)|].
  destruct (Hmtime 0%float eq_refl eq_refl) as [_ [date [Hdate [Hmod Hetag]]]].
  exists date; split; [exact Hdate|].
  split; [exact (Hmod eq_refl) | exact (Hetag eq_refl)].
Defined.

(** C4, as stated, fails.  The transport announces the send-by-path
    extension and the method is not HEAD, yet the file response sends the
    start frame and a body frame read from the file, and no message carrying
    the path. *)
Lemma C4_pathsend_counterexample :
  let r := FileResponse_init "/srv/abc" default_args (Some "example.png") None in
  let result := call Demo.os Demo.get_pathsend (fresh r) in
  In "http.response.pathsend" (extensions Demo.get_pathsend)
  /\ upper (method Demo.get_pathsend) <> "HEAD"
  /\ fst result = Ok tt
  /\ existsb is_pathsend (messages (out (snd result))) = false
  /\ body_frames (messages (out (snd result))) = [(encode "abc", false)].
Proof.
  vm_compute; repeat split; [left; reflexivity | discriminate].
Qed.

Section FileResponses.

Context {lib : Collaborators}.
Variable os : OS.

(** C4, amended.  A file response never sends a message carrying the path,
    and what the transport announces makes no difference: the invocation is
    the one for the same method with no extension at all. *)
Theorem C4_file_response_ignores_pathsend
  (scope : Scope) (r : Response) (path : string) (stat : option stat_result) :
  source r = FileSource path stat ->
  existsb is_pathsend (messages (out (snd (call os scope (fresh r))))) = false
  /\ call os scope (fresh r)
     = call os {| method := method scope; extensions := [] |} (fresh r).
Proof.
  intros Hsrc; split; [|reflexivity].
  destruct (pre_call os (fresh r)) as [res w1] eqn:Hpre.
  destruct (pre_call_keeps os _ _ _ Hpre) as [Hout [h Hself]]; simpl in Hout.
  assert (Hsrc1 : source (self w1) = FileSource path stat)
    by (rewrite Hself; exact Hsrc).
  destruct res as [[]|e].
  - destruct (String.eqb_spec (upper (method scope)) "HEAD") as [Hhead | Hother].
    + rewrite (call_head os scope _ _ Hpre Hhead); simpl; rewrite Hout; simpl.
      now rewrite messages_task_events.
    + destruct (open_rb os path) as [e|file] eqn:Hopen.
      * rewrite (call_file_cannot_open os scope _ _ path stat e Hpre Hother Hsrc1 Hopen).
        simpl; rewrite Hout; reflexivity.
      * rewrite (call_file os scope _ _ path stat file Hpre Hother Hsrc1 Hopen).
        simpl; rewrite Hout; simpl; now rewrite messages_task_events.
  - rewrite (call_pre_call_raises os scope _ _ e Hpre); simpl; rewrite Hout.
    reflexivity.
Qed.

Lemma append_cancel_l (a x y : string) : a +++ x = a +++ y -> x = y.
Proof.
  induction a as [|c a IH]; simpl; intros H; [exact H|].
  inversion H; auto.
Qed.

(** C5, amended.  A file response built without a [stat_result]: if
    [os.stat] finds nothing at the path the call raises the does-not-exist
    error and the world is untouched; if it finds something that is not a
    regular file and [formatdate] has a date for its modification time, the
    call raises the is-not-a-file error; whenever it finds something that is
    not a regular file the call raises and nothing has been sent; the two
    messages differ. *)
Theorem C5_missing_or_irregular_path_fails_before_sending
  (scope : Scope) (w : World) (path : string) :
  source (self w) = FileSource path None ->
  (forall p, os_stat os path = inl (FileNotFoundError p) ->
     call os scope w
     = (Raise (RuntimeError ("File at path " +++ path +++ " does not exist.")), w))
  /\ (forall s, os_stat os path = inr s -> S_ISREG (st_mode s) = false ->
        (forall date, formatdate (st_mtime s) = inr date ->
           fst (call os scope w)
           = Raise (RuntimeError ("File at path " +++ path +++ " is not a file.")))
        /\ (exists e, fst (call os scope w) = Raise e)
        /\ out (snd (call os scope w)) = out w)
  /\ "File at path " +++ path +++ " does not exist."
     <> "File at path " +++ path +++ " is not a file.".
Proof.
  intros Hsrc; pose proof (pre_call_file os path None w Hsrc) as Hpre.
  split; [|split].
  - intros p Hstat; rewrite Hstat in Hpre.
    apply call_pre_call_raises; exact Hpre.
  - intros s Hstat Hmode; rewrite Hstat in Hpre.
    destruct (formatdate (st_mtime s)) as [e|date].
    + assert (Hraise : exists e' , pre_call os w = (Raise e', w))
        by (destruct e; eauto).
      destruct Hraise as [e' Hpre'].
      rewrite (call_pre_call_raises os scope _ _ _ Hpre').
      split; [intros date Hdate; discriminate|].
      split; [eexists; reflexivity | reflexivity].
    + cbv zeta in Hpre; rewrite Hmode in Hpre.
      rewrite (call_pre_call_raises os scope _ _ _ Hpre).
      split; [reflexivity | split; [eexists; reflexivity | reflexivity]].
  - intros Heq; apply append_cancel_l, append_cancel_l in Heq; discriminate.
Qed.

End FileResponses.

(** C4, amended, on the request of the counterexample. *)
Lemma C4_file_response_ignores_pathsend_witness :
  let r := FileResponse_init "/srv/abc" default_args (Some "example.png") None in
  source r = FileSource "/srv/abc" None
  /\ existsb is_pathsend
       (messages (out (snd (call Demo.os Demo.get_pathsend (fresh r))))) = false
  /\ call Demo.os Demo.get_pathsend (fresh r)
     = call Demo.os {| method := "get"; extensions := [] |} (fresh r).
Proof.
  split; [reflexivity|].
  apply (C4_file_response_ignores_pathsend Demo.os Demo.get_pathsend
           (FileResponse_init "/srv/abc" default_args (Some "example.png") None)
           "/srv/abc" None).
  reflexivity.
Defined.

(** C5, as stated, fails.  A directory whose modification time (a
    timestamp in milliseconds, say) lies beyond the dates [formatdate] has:
    the hook raises the error of [formatdate] while setting the headers,
    before it looks at the kind of file, so the error is not the
    is-not-a-file one.  Nothing is sent. *)
Lemma C5_irregular_path_counterexample :
  let folder := {| st_mode := 16877;
                   st_size := 4096;
                   st_mtime := 1700000000000%float |} in
  let os := with_os_stat Demo.os (fun _ => inr folder) in
  let r := FileResponse_init "/srv" default_args (Some "example.png") None in
  S_ISREG (st_mode folder) = false
  /\ fst (call os Demo.get (fresh r)) = Raise (ValueError "year is out of range")
  /\ fst (call os Demo.get (fresh r))
     <> Raise (RuntimeError "File at path /srv is not a file.")
  /\ out (snd (call os Demo.get (fresh r))) = [].
Proof.
  vm_compute; repeat split; discriminate.
Qed.

(** C5, amended, on a path that is not there and on a directory. *)
Lemma C5_missing_or_irregular_path_witness :
  let missing := FileResponse_init "/srv/404.txt" default_args (Some "404.txt") None in
  let folder := FileResponse_init "/srv" default_args (Some "example.png") None in
  call Demo.os Demo.get (fresh missing)
  = (Raise (RuntimeError "File at path /srv/404.txt does not exist."), fresh missing)
  /\ fst (call Demo.os Demo.get (fresh folder))
     = Raise (RuntimeError "File at path /srv is not a file.")
  /\ out (snd (call Demo.os Demo.get (fresh folder))) = [].
Proof.
  split.
  - exact (proj1 (C5_missing_or_irregular_path_fails_before_sending Demo.os Demo.get
                    (fresh (FileResponse_init "/srv/404.txt" default_args
                                              (Some "404.txt") None))
                    "/srv/404.txt" eq_refl)
                 "/srv/404.txt" eq_refl).
  - destruct (proj1 (proj2 (C5_missing_or_irregular_path_fails_before_sending
                              Demo.os Demo.get
                              (fresh (FileResponse_init "/srv" default_args
                                                        (Some "example.png") None))
                              "/srv" eq_refl))
                    {| st_mode := 16877; st_size := 4096; st_mtime := 1700000000%float |}
                    eq_refl eq_refl) as [Hmsg [_ Hout]].
    split; [exact (Hmsg _ eq_refl) | exact Hout].
Defined.

Section HeadRequests.

Context {lib : Collaborators}.
Variable os : OS.


End HeadRequests.


Section ContentDisposition.

Context {lib : Collaborators}.

Lemma init_headers_get (key : string) (headers : option Headers)
  (media_type : option string) :
  key <> "content-type" ->
  header_get key (init_headers headers media_type) = caller_header key headers.
Proof.
  intros Hkey; unfold init_headers, caller_header.
  set (raw := match headers with
              | None => []
              | Some hs => map (fun kv => (lower (fst kv), snd kv)) hs
              end).
  assert (Hraw : header_get key raw
                 = match headers with
                   | None => None
                   | Some hs => header_get key (map (fun kv => (lower (fst kv), snd kv)) hs)
                   end) by (unfold raw; destruct headers; reflexivity).
  rewrite <- Hraw.
  destruct media_type as [t|]; [|reflexivity].
  destruct (header_get "content-type" raw); [reflexivity|].
  rewrite header_get_app; destruct (header_get key raw); [reflexivity|].
  assert (Hne : String.eqb "content-type" key = false)
    by (apply String.eqb_neq; congruence).
  cbn [header_get]; now rewrite Hne.
Qed.

Lemma base_content_disposition
  (src : Source) (args : Common) (media_type : option string) (name : string)
  (size : option Z) (mtime : option float) :
  header_get "content-disposition"
    (raw_headers (BaseFileResponse_init src args media_type (Some name) size mtime))
  = Some match caller_header "content-disposition" (arg_headers args) with
         | Some v => v
         | None => disposition (arg_content_disposition_type args) name
         end.
Proof.
  unfold BaseFileResponse_init, set_content_disposition_header; cbn [filename].
  unfold with_headers; cbn [raw_headers].
  rewrite (header_get_setdefault _ "content-disposition"); simpl lower.
  rewrite init_headers_get by discriminate.
  unfold disposition; destruct (String.eqb (quote name) name); reflexivity.
Qed.

(** C7.  A response constructed with a filename, of any of the four
    classes, carries as content-disposition the value the caller passed under
    that name, if any; otherwise the plain form when quoting leaves the
    filename as it is, and the extended form with the quoted filename when it
    does not. *)
Theorem C7_content_disposition
  (args : Common) (name : string) (size : option Z) (mtime : option float) :
  let expected :=
    Some match caller_header "content-disposition" (arg_headers args) with
         | Some v => v
         | None => disposition (arg_content_disposition_type args) name
         end in
  (forall path stat,
     header_get "content-disposition"
       (raw_headers (FileResponse_init path args (Some name) stat)) = expected)
  /\ (forall content,
        header_get "content-disposition"
          (raw_headers (BytesFileResponse_init content name args size mtime)) = expected)
  /\ (forall content,
        header_get "content-disposition"
          (raw_headers (TextFileResponse_init content name args size mtime)) = expected)
  /\ (forall (JSON : Type) (json_dumps : JSON -> exn + string) content r,
        JsonFileResponse_init json_dumps content name args size mtime = inr r ->
        header_get "content-disposition" (raw_headers r) = expected).
Proof.
  cbv zeta; split; [|split; [|split]].
  - intros path stat; apply base_content_disposition.
  - intros content; apply base_content_disposition.
  - intros content; apply base_content_disposition.
  - intros JSON json_dumps content r; unfold JsonFileResponse_init.
    destruct (json_dumps content) as [e|text]; [discriminate|].
    intros H; inversion H; subst; apply base_content_disposition.
Qed.

End ContentDisposition.

(** C7 on a JSON response whose caller passed [Content-Disposition]. *)
Lemma C7_content_disposition_witness :
  let dumps (n : nat) : exn + string :=
    match n with
    | O => inr "[]"
    | _ => inl (TypeError "Object is not JSON serializable")
    end in
  let headers := Some [("Content-Disposition", "inline")] in
  let args := {| arg_status_code := 200;
                 arg_headers := headers;
                 arg_media_type := None;
                 arg_background := None;
                 arg_content_disposition_type := "attachment" |} in
  exists r,
    JsonFileResponse_init dumps O "a b.json" args None None = inr r
    /\ header_get "content-disposition" (raw_headers r) = Some "inline".
Proof.
  eexists; split; [reflexivity|].
  apply (proj2 (proj2 (proj2
           (C7_content_disposition
              {| arg_status_code := 200;
                 arg_headers := Some [("Content-Disposition", "inline")];
                 arg_media_type := None;
                 arg_background := None;
                 arg_content_disposition_type := "attachment" |}
              "a b.json" None None)))
           nat
           (fun n => match n with
                     | O => inr "[]"
                     | _ => inl (TypeError "Object is not JSON serializable")
                     end)
           O).
  reflexivity.
Defined.

(** The forms of content-disposition on the filenames of the test suite's
    kind: one that quoting leaves alone, one with a space, and the
    [inline] mode. *)
Example content_disposition_examples :
  let cd r := header_get "content-disposition" (raw_headers r) in
  let inline := {| arg_status_code := 200;
                   arg_headers := None;
                   arg_media_type := None;
                   arg_background := None;
                   arg_content_disposition_type := "inline" |} in
  cd (BytesFileResponse_init [] "example.png" default_args None None)
  = Some ("attachment; filename=" +++ dquote +++ "example.png" +++ dquote)
  /\ cd (TextFileResponse_init "x" "a b.txt" default_args None None)
     = Some "attachment; filename*=utf-8''a%20b.txt"
  /\ cd (FileResponse_init "/srv/abc" inline (Some "hello.txt") None)
     = Some ("inline; filename=" +++ dquote +++ "hello.txt" +++ dquote).
Proof. vm_compute; repeat split. Qed.

(** ** The background task *)


Lemma task_starts_transfer (es : list Event) :
  forallb is_transfer es = true -> task_starts es = O.
Proof.
  induction es as [|e es IH]; simpl; [reflexivity|].
  destruct e; simpl; try discriminate; exact IH.
Qed.


Lemma frames_are_transfer (chunk_size : Z) (cs : list bytes) :
  forallb is_transfer (map (frame chunk_size) cs) = true.
Proof. induction cs as [|c cs IH]; simpl; auto. Qed.

(** A response is a file response or has its content in memory. *)
Lemma source_cases (r : Response) :
  (exists path stat, source r = FileSource path stat)
  \/ (exists content, memory_content r = Some content).
Proof.
  unfold memory_content; destruct (source r) as [p s|c|c|c]; eauto.
Qed.

Section Cleanup.

Context {lib : Collaborators}.
Variable os : OS.


End Cleanup.


(** ** The JSON class *)

Section Json.

Context {lib : Collaborators}.
Variable os : OS.

(** Invoking a bytes response seen as a JSON response does the same, step
    for step: the classes share the hook and the generator. *)
Lemma call_as_json (scope : Scope) (w : World) (content : bytes) :
  source (self w) = BytesSource content ->
  call os scope (world_as_json w)
  = (fst (call os scope w), world_as_json (snd (call os scope w))).
Proof.
  destruct w as [[src st md bg fn h sz mt cs] t o]; simpl; intros ->.
  pose proof (pre_call_memory os content
                (mkWorld (mkResponse (BytesSource content) st md bg fn h sz mt cs) t o)
                eq_refl) as Hb.
  pose proof (pre_call_memory os content
                (mkWorld (mkResponse (JsonSource content) st md bg fn h sz mt cs) t o)
                eq_refl) as Hj.
  unfold memory_hook in Hb, Hj; cbv zeta in Hb, Hj.
  cbn [self ticks out size mtime] in Hb, Hj.
  unfold world_as_json, as_json; cbn [self ticks out source status_code media_type
    background filename raw_headers size mtime chunk_size].
  destruct (formatdate (fst (header_mtime os mt t))) as [e|date].
  - rewrite (call_pre_call_raises os scope _ _ e Hb).
    rewrite (call_pre_call_raises os scope _ _ e Hj); reflexivity.
  - destruct (String.eqb_spec (upper (method scope)) "HEAD") as [Hhead | Hother].
    + rewrite (call_head os scope _ _ Hb Hhead), (call_head os scope _ _ Hj Hhead).
      reflexivity.
    + destruct (slicer content cs) as [e|chunks] eqn:Hcs.
      * rewrite (call_memory_slicer_raises os scope _ _ content e Hb Hother eq_refl Hcs).
        rewrite (call_memory_slicer_raises os scope _ _ content e Hj Hother eq_refl Hcs).
        reflexivity.
      * rewrite (call_memory_chunks os scope _ _ content chunks Hb Hother eq_refl Hcs).
        rewrite (call_memory_chunks os scope _ _ content chunks Hj Hother eq_refl Hcs).
        reflexivity.
Qed.

Variable JSON : Type.
Variable json_dumps : JSON -> exn + string.

(** C9.  For a structure [json.dumps] serialises, the JSON response is
    built, and it is the bytes response for the encoded serialisation seen as
    an instance of the JSON class: the same attributes and headers, and, for
    every chunk threshold, operating system, request, clock and log so far,
    the same outcome of the call, the same log, clock and headers after it. *)
Theorem C9_json_response_is_a_bytes_response
  (content : JSON) (text : string) (name : string) (args : Common)
  (size : option Z) (mtime : option float) :
  json_dumps content = inr text ->
  let rb := BytesFileResponse_init (encode text) name args size mtime in
  exists rj,
    JsonFileResponse_init json_dumps content name args size mtime = inr rj
    /\ rj = as_json rb
    /\ raw_headers rj = raw_headers rb
    /\ forall (n : Z) (scope : Scope) (t : nat) (o : list Event),
         let cj := call os scope (mkWorld (with_chunk_size rj n) t o) in
         let cb := call os scope (mkWorld (with_chunk_size rb n) t o) in
         fst cj = fst cb
         /\ out (snd cj) = out (snd cb)
         /\ ticks (snd cj) = ticks (snd cb)
         /\ raw_headers (self (snd cj)) = raw_headers (self (snd cb)).
Proof.
  intros Hdumps rb; unfold JsonFileResponse_init; rewrite Hdumps.
  eexists; split; [reflexivity|].
  assert (Hrj : BaseFileResponse_init (JsonSource (encode text)) args
                  (arg_media_type args) (Some name) size mtime = as_json rb)
    by reflexivity.
  rewrite Hrj; split; [reflexivity|]; split; [reflexivity|].
  intros n scope t o.
  assert (Hw : mkWorld (with_chunk_size (as_json rb) n) t o
               = world_as_json (mkWorld (with_chunk_size rb n) t o)) by reflexivity.
  cbv zeta; rewrite Hw.
  rewrite (call_as_json scope _ (encode text)) by reflexivity.
  repeat split.
Qed.

End Json.

(** C9 on the empty JSON list. *)
Lemma C9_json_response_witness :
  let dumps (n : nat) : exn + string :=
    match n with
    | O => inr "[]"
    | _ => inl (TypeError "Object is not JSON serializable")
    end in
  let rb := BytesFileResponse_init (encode "[]") "a.json" default_args None None in
  dumps O = inr "[]"
  /\ exists rj,
       JsonFileResponse_init dumps O "a.json" default_args None None = inr rj
       /\ rj = as_json rb
       /\ raw_headers rj = raw_headers rb
       /\ forall (n : Z) (scope : Scope) (t : nat) (o : list Event),
            let cj := call Demo.os scope (mkWorld (with_chunk_size rj n) t o) in
            let cb := call Demo.os scope (mkWorld (with_chunk_size rb n) t o) in
            fst cj = fst cb
            /\ out (snd cj) = out (snd cb)
            /\ ticks (snd cj) = ticks (snd cb)
            /\ raw_headers (self (snd cj)) = raw_headers (self (snd cb)).
Proof.
  split; [reflexivity|].
  apply (C9_json_response_is_a_bytes_response Demo.os nat
           (fun n => match n with
                     | O => inr "[]"
                     | _ => inl (TypeError "Object is not JSON serializable")
                     end)
           O "[]" "a.json" default_args None None).
  reflexivity.
Defined.

(** * Further properties of the package *)

(** ** What [slicer] cuts *)

Lemma nth_error_map_seq {A : Type} (f : nat -> A) (n i : nat) (c : A) :
  nth_error (map f (seq 0 n)) i = Some c -> (i < n)%nat /\ c = f i.
Proof.
  rewrite nth_error_map; intros H.
  destruct (nth_error (seq 0 n) i) as [j|] eqn:Hj; simpl in H; [|discriminate].
  assert (Hi : (i < n)%nat).
  { rewrite <- (length_seq n 0); apply nth_error_Some; rewrite Hj; discriminate. }
  apply (nth_error_nth _ _ O) in Hj; rewrite seq_nth in Hj by exact Hi.
  inversion H; subst; auto.
Qed.

Lemma chunk_at (k n : nat) (text : bytes) (i : nat) (c : bytes) :
  nth_error (chunks k n text) i = Some c ->
  (i < n)%nat /\ c = firstn k (skipn (i * k) text).
Proof.
  unfold chunks; intros H; apply nth_error_map_seq in H; exact H.
Qed.

Lemma chunk_len (text : bytes) (chunk_size : Z) (j : nat) :
  0 < chunk_size ->
  Z.of_nat j * chunk_size <= len text ->
  len (firstn (Z.to_nat chunk_size) (skipn (j * Z.to_nat chunk_size) text))
  = Z.min chunk_size (len text - Z.of_nat j * chunk_size).
Proof.
  intros Hpos Hj; unfold len in *; rewrite length_firstn, length_skipn.
  assert (Hp : Z.of_nat (j * Z.to_nat chunk_size) = Z.of_nat j * chunk_size)
    by (rewrite Nat2Z.inj_mul, Z2Nat.id; lia).
  lia.
Qed.

(** For a positive threshold [slicer] cuts as many chunks as the length
    divided by the threshold, rounded up; no chunk is empty or longer than
    the threshold, and every chunk but the last is exactly as long. *)
Theorem slicer_chunk_shape (text : bytes) (chunk_size : Z) :
  0 < chunk_size ->
  exists cs,
    slicer text chunk_size = inr cs
    /\ Z.of_nat (length cs) = (len text + chunk_size - 1) / chunk_size
    /\ Forall (fun c => 0 < len c <= chunk_size) cs
    /\ (forall i c, nth_error cs i = Some c -> (S i < length cs)%nat ->
                    len c = chunk_size).
Proof.
  intros Hpos; eexists; split; [apply slicer_chunks; exact Hpos|].
  assert (Hlen : length (chunks (Z.to_nat chunk_size) (chunk_count text chunk_size) text)
                 = chunk_count text chunk_size)
    by (unfold chunks; now rewrite length_map, length_seq).
  split; [|split].
  - rewrite Hlen; unfold chunk_count; rewrite Z2Nat.id; [reflexivity|].
    apply Z.div_pos; unfold len; lia.
  - apply Forall_forall; intros c Hc.
    apply In_nth_error in Hc; destruct Hc as [i Hi].
    apply chunk_at in Hi; destruct Hi as [Hi ->].
    pose proof (chunk_index_inside text chunk_size i Hpos Hi) as Hin.
    rewrite chunk_len by lia; lia.
  - intros i c Hc Hnext; rewrite Hlen in Hnext.
    apply chunk_at in Hc; destruct Hc as [Hi ->].
    pose proof (chunk_index_inside text chunk_size (S i) Hpos Hnext) as Hin.
    rewrite chunk_len by lia; lia.
Qed.

(** A zero threshold makes [slicer] raise; a negative one makes it cut
    nothing, whatever the text. *)
Theorem slicer_nonpositive_threshold (text : bytes) (chunk_size : Z) :
  (chunk_size = 0 ->
   slicer text chunk_size = inl (ValueError "range() arg 3 must not be zero"))
  /\ (chunk_size < 0 -> slicer text chunk_size = inr []).
Proof.
  split; intros H; unfold slicer, range.
  - subst; reflexivity.
  - replace (chunk_size =? 0) with false by (symmetry; apply Z.eqb_neq; lia).
    replace (0 <? chunk_size) with false by (symmetry; apply Z.ltb_ge; lia).
    assert (Hn : (0 - len text - chunk_size - 1) / - chunk_size <= 0).
    { destruct (Z.le_gt_cases 0 (0 - len text - chunk_size - 1)) as [Hge | Hlt].
      - rewrite Z.div_small; [lia | unfold len in *; lia].
      - apply Z.lt_le_incl, Z.div_lt_upper_bound; lia. }
    replace (Z.to_nat ((0 - len text - chunk_size - 1) / - chunk_size)) with O by lia.
    reflexivity.
Qed.

(** ** The log of a streamed body *)

Section Streaming.

Context {lib : Collaborators}.
Variable os : OS.

Lemma memory_call_log (scope : Scope) (r : Response) (content : bytes)
  (cs : list bytes) (w1 : World) :
  memory_content r = Some content ->
  pre_call os (fresh r) = (Ok tt, w1) ->
  upper (method scope) <> "HEAD" ->
  slicer content (chunk_size r) = inr cs ->
  fst (call os scope (fresh r)) = Ok tt
  /\ out (snd (call os scope (fresh r)))
     = Sent (ResponseStart (status_code r) (raw_headers (self w1)))
         :: map (frame (chunk_size r)) cs
         ++ PostCallDone :: task_events (background r).
Proof.
  intros Hmem Hpre Hother Hcs.
  destruct (pre_call_keeps os _ _ _ Hpre) as [Hout [h Hself]].
  rewrite (call_memory_chunks os scope _ _ content cs Hpre Hother)
    by (rewrite Hself; assumption).
  split; [reflexivity|]; simpl; rewrite Hout, Hself; reflexivity.
Qed.

Lemma memory_call_raises (scope : Scope) (r : Response) (content : bytes) (e : exn)
  (w1 : World) :
  memory_content r = Some content ->
  pre_call os (fresh r) = (Ok tt, w1) ->
  upper (method scope) <> "HEAD" ->
  slicer content (chunk_size r) = inl e ->
  fst (call os scope (fresh r)) = Raise e
  /\ out (snd (call os scope (fresh r)))
     = [Sent (ResponseStart (status_code r) (raw_headers (self w1)))].
Proof.
  intros Hmem Hpre Hother Hcs.
  destruct (pre_call_keeps os _ _ _ Hpre) as [Hout [h Hself]].
  rewrite (call_memory_slicer_raises os scope _ _ content e Hpre Hother)
    by (rewrite Hself; assumption).
  split; [reflexivity|]; simpl; rewrite Hout, Hself; reflexivity.
Qed.

Lemma more_flags_stream (start : Message) (chunk_size : Z) (cs : list bytes)
  (t : option BackgroundTask) :
  is_body start = false ->
  more_flags (Sent start :: map (frame chunk_size) cs ++ PostCallDone :: task_events t)
  = map (fun c => len c =? chunk_size) cs.
Proof.
  intros Hstart; unfold more_flags; simpl.
  rewrite messages_app; simpl; rewrite messages_task_events, app_nil_r.
  destruct start; try discriminate; rewrite body_frames_frames, map_map; reflexivity.
Qed.

(** Every in-memory response whose pre-send hook passes, asked with a
    method other than HEAD and with a positive threshold, returns, and the
    payloads of its body frames put together are its content. *)
Theorem in_memory_body_round_trip
  (scope : Scope) (r : Response) (content : bytes) (w1 : World) :
  memory_content r = Some content ->
  pre_call os (fresh r) = (Ok tt, w1) ->
  0 < chunk_size r ->
  upper (method scope) <> "HEAD" ->
  fst (call os scope (fresh r)) = Ok tt
  /\ payloads (out (snd (call os scope (fresh r)))) = content
  /\ Z.of_nat (length (body_frames (messages (out (snd (call os scope (fresh r)))))))
     = (len content + chunk_size r - 1) / chunk_size r.
Proof.
  intros Hmem Hpre Hpos Hother.
  destruct (memory_call_log scope r content _ w1 Hmem Hpre Hother
              (slicer_chunks content (chunk_size r) Hpos)) as [Hok Hout].
  split; [exact Hok|]; rewrite Hout; split.
  - erewrite payloads_stream by reflexivity.
    rewrite concat_chunks; apply firstn_all2, chunk_count_covers; exact Hpos.
  - simpl; rewrite messages_app; simpl; rewrite messages_task_events, app_nil_r.
    rewrite body_frames_frames, length_map; unfold chunks.
    rewrite length_map, length_seq; unfold chunk_count; rewrite Z2Nat.id; [reflexivity|].
    apply Z.div_pos; unfold len; lia.
Qed.

(** With a threshold of zero an in-memory response whose pre-send hook
    passes, asked with a method other than HEAD, sends its start frame and
    then raises the [ValueError] of [range]: no body frame, no post-send
    hook, no background task. *)
Theorem zero_threshold_raises_after_start
  (scope : Scope) (r : Response) (content : bytes) (w1 : World) :
  memory_content r = Some content ->
  pre_call os (fresh r) = (Ok tt, w1) ->
  chunk_size r = 0 ->
  upper (method scope) <> "HEAD" ->
  fst (call os scope (fresh r)) = Raise (ValueError "range() arg 3 must not be zero")
  /\ out (snd (call os scope (fresh r)))
     = [Sent (ResponseStart (status_code r) (raw_headers (self w1)))].
Proof.
  intros Hmem Hpre Hzero Hother.
  apply (memory_call_raises scope r content _ w1 Hmem Hpre Hother).
  apply slicer_nonpositive_threshold; exact Hzero.
Qed.

(** With a negative threshold an in-memory response whose pre-send hook
    passes, asked with a method other than HEAD, returns without having sent
    any body frame, whatever its content. *)
Theorem negative_threshold_sends_no_body
  (scope : Scope) (r : Response) (content : bytes) (w1 : World) :
  memory_content r = Some content ->
  pre_call os (fresh r) = (Ok tt, w1) ->
  chunk_size r < 0 ->
  upper (method scope) <> "HEAD" ->
  fst (call os scope (fresh r)) = Ok tt
  /\ body_frames (messages (out (snd (call os scope (fresh r))))) = [].
Proof.
  intros Hmem Hpre Hneg Hother.
  destruct (memory_call_log scope r content [] w1 Hmem Hpre Hother
              (proj2 (slicer_nonpositive_threshold content (chunk_size r)) Hneg))
    as [Hok Hout].
  split; [exact Hok|]; rewrite Hout; simpl.
  now rewrite messages_task_events.
Qed.

End Streaming.

(** ** The [more_body] flags *)

Lemma full_chunks_flags (text : bytes) (chunk_size : Z) (m : nat) :
  0 < chunk_size ->
  Z.of_nat m * chunk_size <= len text ->
  map (fun c => len c =? chunk_size) (chunks (Z.to_nat chunk_size) m text)
  = repeat true m.
Proof.
  intros Hpos Hm; unfold chunks; rewrite map_map.
  rewrite <- (length_seq m 0) at 2; rewrite <- map_const.
  apply map_ext_in; intros j Hj; apply in_seq in Hj.
  rewrite chunk_len by nia.
  apply Z.eqb_eq; nia.
Qed.

Lemma flags_when_ragged (text : bytes) (chunk_size : Z) :
  0 < chunk_size ->
  len text mod chunk_size <> 0 ->
  map (fun c => len c =? chunk_size)
      (chunks (Z.to_nat chunk_size) (chunk_count text chunk_size) text)
  = repeat true (chunk_count text chunk_size - 1) ++ [false].
Proof.
  intros Hpos Hrag.
  pose proof (chunk_count_covers text chunk_size Hpos) as Hcover.
  destruct (chunk_count text chunk_size) as [|m] eqn:Hn.
  - exfalso; apply Hrag.
    assert (Hlen : len text = 0) by (unfold len; lia).
    rewrite Hlen; apply Z.mod_0_l; lia.
  - assert (Hin : Z.of_nat m * chunk_size < len text)
      by (apply chunk_index_inside; [exact Hpos | rewrite Hn; lia]).
    assert (Hup : len text <= Z.of_nat (S m) * chunk_size).
    { unfold len; rewrite <- (Z2Nat.id chunk_size) at 1 by lia.
      rewrite <- Nat2Z.inj_mul; apply Nat2Z.inj_le; exact Hcover. }
    replace (S m - 1)%nat with m by lia.
    unfold chunks; rewrite seq_S, !map_app; simpl.
    fold (chunks (Z.to_nat chunk_size) m text).
    rewrite full_chunks_flags by lia.
    f_equal; f_equal; rewrite chunk_len by lia.
    apply Z.eqb_neq; intros Heq; apply Hrag.
    assert (Hlen : len text = Z.of_nat (S m) * chunk_size) by lia.
    rewrite Hlen; apply Z.mod_mul; lia.
Qed.

Lemma flags_when_even (text : bytes) (chunk_size : Z) :
  0 < chunk_size ->
  len text mod chunk_size = 0 ->
  map (fun c => len c =? chunk_size)
      (chunks (Z.to_nat chunk_size) (chunk_count text chunk_size) text)
  = repeat true (Z.to_nat (len text / chunk_size)).
Proof.
  intros Hpos Heven.
  assert (Hlen : len text = len text / chunk_size * chunk_size).
  { rewrite Z.mul_comm; apply Z.div_exact; lia. }
  assert (Hq : 0 <= len text / chunk_size) by (apply Z.div_pos; unfold len; lia).
  assert (Hn : chunk_count text chunk_size = Z.to_nat (len text / chunk_size)).
  { unfold chunk_count; f_equal.
    rewrite Hlen at 1; rewrite <- Z.add_sub_assoc, Z.div_add_l by lia.
    rewrite (Z.div_small (chunk_size - 1)) by lia; lia. }
  rewrite Hn; apply full_chunks_flags; [exact Hpos|].
  rewrite Z2Nat.id by lia; lia.
Qed.

Section Flags.

Context {lib : Collaborators}.
Variable os : OS.

(** When the length of the content is not a multiple of the (positive)
    threshold, an in-memory response whose pre-send hook passes, asked with a
    method other than HEAD, sets [more_body] on every body frame but the
    last, and clears it on the last. *)
Theorem ragged_content_ends_the_body
  (scope : Scope) (r : Response) (content : bytes) (w1 : World) :
  memory_content r = Some content ->
  pre_call os (fresh r) = (Ok tt, w1) ->
  0 < chunk_size r ->
  len content mod chunk_size r <> 0 ->
  upper (method scope) <> "HEAD" ->
  more_flags (out (snd (call os scope (fresh r))))
  = repeat true (chunk_count content (chunk_size r) - 1) ++ [false].
Proof.
  intros Hmem Hpre Hpos Hrag Hother.
  destruct (memory_call_log os scope r content _ w1 Hmem Hpre Hother
              (slicer_chunks content (chunk_size r) Hpos)) as [_ Hout].
  rewrite Hout, more_flags_stream by reflexivity.
  apply flags_when_ragged; assumption.
Qed.

(** When the length of the content is a multiple of the (positive)
    threshold, zero included, an in-memory response whose pre-send hook
    passes, asked with a method other than HEAD, returns with [more_body]
    set on every body frame it sent: length / threshold frames, none of them
    final. *)
Theorem even_content_never_ends_the_body
  (scope : Scope) (r : Response) (content : bytes) (w1 : World) :
  memory_content r = Some content ->
  pre_call os (fresh r) = (Ok tt, w1) ->
  0 < chunk_size r ->
  len content mod chunk_size r = 0 ->
  upper (method scope) <> "HEAD" ->
  fst (call os scope (fresh r)) = Ok tt
  /\ more_flags (out (snd (call os scope (fresh r))))
     = repeat true (Z.to_nat (len content / chunk_size r)).
Proof.
  intros Hmem Hpre Hpos Heven Hother.
  destruct (memory_call_log os scope r content _ w1 Hmem Hpre Hother
              (slicer_chunks content (chunk_size r) Hpos)) as [Hok Hout].
  split; [exact Hok|].
  rewrite Hout, more_flags_stream by reflexivity.
  apply flags_when_even; assumption.
Qed.

End Flags.

(** ** The body of a file response *)

Section FileBodies.

Context {lib : Collaborators}.
Variable os : OS.


(** A file at least as long as a threshold that is not negative gives one
    body frame with the first threshold-many bytes and [more_body] set, and
    nothing after it: when the file is longer, the rest is never sent. *)
Theorem long_file_is_cut_at_the_threshold
  (scope : Scope) (r : Response) (path : string) (stat : option stat_result)
  (file : bytes) (w1 : World) :
  source r = FileSource path stat ->
  pre_call os (fresh r) = (Ok tt, w1) ->
  open_rb os path = inr file ->
  upper (method scope) <> "HEAD" ->
  0 <= chunk_size r <= len file ->
  fst (call os scope (fresh r)) = Ok tt
  /\ body_frames (messages (out (snd (call os scope (fresh r)))))
     = [(firstn (Z.to_nat (chunk_size r)) file, true)]
  /\ len (payloads (out (snd (call os scope (fresh r))))) = chunk_size r.
Proof.
  intros Hsrc Hpre Hopen Hother Hlong.
  destruct (file_payloads os scope r path stat file w1 Hsrc Hpre Hopen Hother)
    as [Hok Hframes].
  assert (Hread : read file (chunk_size r) = firstn (Z.to_nat (chunk_size r)) file).
  { unfold read; replace (chunk_size r <? 0) with false
      by (symmetry; apply Z.ltb_ge; lia); reflexivity. }
  assert (Hlen : len (firstn (Z.to_nat (chunk_size r)) file) = chunk_size r)
    by (unfold len in *; rewrite length_firstn; lia).
  split; [exact Hok|]; unfold payloads; rewrite Hframes, Hread, Hlen, Z.eqb_refl.
  split; [reflexivity|]; simpl; rewrite app_nil_r; exact Hlen.
Qed.

(** A file response built with the [stat_result] of a regular file does
    not look at the path before the start frame: if the file cannot be
    opened, the call raises the error of [open] after the start frame, with
    the headers of construction, has been sent, and nothing else happens. *)
Theorem stale_stat_fails_after_start
  (scope : Scope) (r : Response) (path : string) (s : stat_result) (e : exn) :
  source r = FileSource path (Some s) ->
  S_ISREG (st_mode s) = true ->
  open_rb os path = inl e ->
  upper (method scope) <> "HEAD" ->
  call os scope (fresh r)
  = (Raise e, mkWorld r 0 [Sent (ResponseStart (status_code r) (raw_headers r))]).
Proof.
  intros Hsrc Hreg Hopen Hother.
  assert (Hpre : pre_call os (fresh r) = (Ok tt, fresh r))
    by (rewrite (pre_call_file os path (Some s) (fresh r) Hsrc), Hreg; reflexivity).
  rewrite (call_file_cannot_open os scope _ _ path (Some s) e Hpre Hother Hsrc Hopen).
  reflexivity.
Qed.

(** An error of [os.stat] other than file-not-found is raised as it is,
    with nothing sent and the response untouched. *)
Theorem other_stat_errors_pass_through
  (scope : Scope) (w : World) (path : string) (e : exn) :
  source (self w) = FileSource path None ->
  os_stat os path = inl e ->
  (forall p, e <> FileNotFoundError p) ->
  call os scope w = (Raise e, w).
Proof.
  intros Hsrc Hstat Hother; apply call_pre_call_raises.
  rewrite (pre_call_file os path None w Hsrc), Hstat.
  destruct e; try reflexivity; exfalso; eapply Hother; reflexivity.
Qed.

(** A file response built with a [stat_result] never calls [os.stat]: the
    invocation is the same whatever [os.stat] would answer. *)
Theorem precomputed_stat_is_trusted
  (scope : Scope) (w : World) (path : string) (s : stat_result)
  (f : string -> exn + stat_result) :
  source (self w) = FileSource path (Some s) ->
  call (with_os_stat os f) scope w = call os scope w.
Proof.
  intros Hsrc.
  pose proof (pre_call_file os path (Some s) w Hsrc) as Hpre.
  pose proof (pre_call_file (with_os_stat os f) path (Some s) w Hsrc) as Hpre'.
  cbv beta iota in Hpre, Hpre'.
  destruct (S_ISREG (st_mode s)).
  - destruct (String.eqb_spec (upper (method scope)) "HEAD") as [Hhead | Hother].
    + rewrite (call_head os scope _ _ Hpre Hhead).
      rewrite (call_head (with_os_stat os f) scope _ _ Hpre' Hhead); reflexivity.
    + destruct (open_rb os path) as [e|file] eqn:Hopen.
      * rewrite (call_file_cannot_open os scope _ _ path (Some s) e Hpre Hother Hsrc Hopen).
        rewrite (call_file_cannot_open (with_os_stat os f) scope _ _ path (Some s) e
                   Hpre' Hother Hsrc Hopen); reflexivity.
      * rewrite (call_file os scope _ _ path (Some s) file Hpre Hother Hsrc Hopen).
        rewrite (call_file (with_os_stat os f) scope _ _ path (Some s) file
                   Hpre' Hother Hsrc Hopen); reflexivity.
  - rewrite (call_pre_call_raises os scope _ _ _ Hpre).
    rewrite (call_pre_call_raises (with_os_stat os f) scope _ _ _ Hpre'); reflexivity.
Qed.

End FileBodies.

(** ** The shape of every invocation *)

Lemma bodies_of_frames (chunk_size : Z) (cs : list bytes) :
  forallb is_body (messages (map (frame chunk_size) cs)) = true.
Proof. induction cs as [|c cs IH]; simpl; auto. Qed.

Section Shape.

Context {lib : Collaborators}.
Variable os : OS.

(** Whatever the response and the request, what a call adds to the log is
    some events of the transfer, whose messages are a start frame and then
    body frames, or nothing; if the call raises, that is all; if it
    returns, the post-send hook and the background task follow. *)
Lemma call_shape (scope : Scope) (w : World) :
  exists transfer,
    forallb is_transfer transfer = true
    /\ start_then_bodies (messages transfer) = true
    /\ ((exists e, fst (call os scope w) = Raise e
                   /\ out (snd (call os scope w)) = out w ++ transfer)
        \/ (fst (call os scope w) = Ok tt
            /\ out (snd (call os scope w))
               = out w ++ transfer
                   ++ PostCallDone :: task_events (background (self w)))).
Proof.
  destruct (pre_call os w) as [res w1] eqn:Hpre.
  destruct (pre_call_keeps os _ _ _ Hpre) as [Hout [h Hself]].
  assert (Hbg : background (self w1) = background (self w)) by (now rewrite Hself).
  destruct res as [[]|e].
  - destruct (String.eqb_spec (upper (method scope)) "HEAD") as [Hhead | Hother].
    + exists [start_frame (self w1); Sent (ResponseBody [] false)].
      rewrite (call_head os scope _ _ Hpre Hhead); simpl; rewrite Hout, Hbg.
      repeat split; right; split; reflexivity.
    + destruct (source_cases (self w1)) as [[path [stat Hsrc]] | [c Hmem]].
      * destruct (open_rb os path) as [e|file] eqn:Hopen.
        -- exists [start_frame (self w1)].
           rewrite (call_file_cannot_open os scope _ _ path stat e Hpre Hother Hsrc Hopen).
           simpl; rewrite Hout; repeat split; left; exists e; split; reflexivity.
        -- exists [start_frame (self w1); Opened path;
                   frame (chunk_size (self w1)) (read file (chunk_size (self w1)));
                   Closed path].
           rewrite (call_file os scope _ _ path stat file Hpre Hother Hsrc Hopen).
           simpl; rewrite Hout, Hbg; repeat split; right; split; reflexivity.
      * destruct (slicer c (chunk_size (self w1))) as [e|cs] eqn:Hcs.
        -- exists [start_frame (self w1)].
           rewrite (call_memory_slicer_raises os scope _ _ c e Hpre Hother Hmem Hcs).
           simpl; rewrite Hout; repeat split; left; exists e; split; reflexivity.
        -- exists (start_frame (self w1) :: map (frame (chunk_size (self w1))) cs).
           rewrite (call_memory_chunks os scope _ _ c cs Hpre Hother Hmem Hcs).
           simpl; rewrite Hout, Hbg.
           split; [apply frames_are_transfer|].
           split; [apply bodies_of_frames|].
           right; split; reflexivity.
  - exists []; rewrite (call_pre_call_raises os scope _ _ e Hpre); simpl.
    rewrite Hout, app_nil_r; repeat split; left; exists e; split; reflexivity.
Qed.

(** On any call of any response, the messages sent are none at all, or one
    start frame followed by body frames only: there is never a body frame
    before the start frame, never a second start frame, and never a message
    of another kind. *)
Theorem messages_are_start_then_bodies (scope : Scope) (r : Response) :
  start_then_bodies (messages (out (snd (call os scope (fresh r))))) = true.
Proof.
  destruct (call_shape scope (fresh r)) as [transfer [_ [Hshape [[e [_ Hout]] | [_ Hout]]]]];
    rewrite Hout; simpl.
  - exact Hshape.
  - rewrite messages_app; simpl; rewrite messages_task_events, app_nil_r.
    exact Hshape.
Qed.

(** When a call raises, neither the post-send hook nor the background
    task has run: the call added events of the transfer only. *)
Theorem failed_call_runs_no_task (scope : Scope) (w w2 : World) (e : exn) :
  call os scope w = (Raise e, w2) ->
  exists transfer,
    out w2 = out w ++ transfer
    /\ forallb is_transfer transfer = true
    /\ task_starts transfer = O.
Proof.
  intros Hcall.
  destruct (call_shape scope w) as [transfer [Htr [_ [[e' [_ Hout]] | [Hok _]]]]].
  - rewrite Hcall in Hout; simpl in Hout; exists transfer.
    split; [exact Hout | split; [exact Htr | apply task_starts_transfer; exact Htr]].
  - rewrite Hcall in Hok; discriminate.
Qed.

End Shape.

(** ** Headers across construction and the hook *)

Lemma header_get_setdefault_keeps (h : Headers) (key value other v : string) :
  header_get other h = Some v ->
  header_get other (setdefault h key value) = Some v.
Proof.
  intros H; unfold setdefault; destruct (header_get (lower key) h); [exact H|].
  now rewrite header_get_app, H.
Qed.

Lemma setdefault_present (h : Headers) (key value v : string) :
  header_get (lower key) h = Some v -> setdefault h key value = h.
Proof. intros H; unfold setdefault; now rewrite H. Qed.

Lemma init_headers_keeps (key v : string) (headers : option Headers)
  (media_type : option string) :
  caller_header key headers = Some v ->
  header_get key (init_headers headers media_type) = Some v.
Proof.
  unfold caller_header, init_headers; destruct headers as [hs|]; [|discriminate].
  intros H; destruct media_type as [t|]; [|exact H].
  destruct (header_get "content-type" _); [exact H|].
  now rewrite header_get_app, H.
Qed.

Section HeadersAcross.

Context {lib : Collaborators}.

Lemma stamped_keeps (r : Response) (sz : Z) (mt : float) (date key v : string) :
  header_get key (raw_headers r) = Some v ->
  header_get key (raw_headers (stamped r sz mt date)) = Some v.
Proof.
  intros H; unfold stamped; simpl.
  now apply header_get_setdefault_keeps, header_get_setdefault_keeps,
    header_get_setdefault_keeps.
Qed.

Lemma stamped_twice (r : Response) (sz sz' : Z) (mt mt' : float) (date date' : string) :
  stamped (stamped r sz mt date) sz' mt' date' = stamped r sz mt date.
Proof.
  pose proof (stamped_get r sz mt date) as Hget; cbv zeta in Hget.
  destruct Hget as [Hlen [Hmod Hetag]]; unfold kept_or in *.
  unfold stamped at 1.
  rewrite (setdefault_present _ "content-length" _ _ Hlen).
  rewrite (setdefault_present _ "last-modified" _ _ Hmod).
  rewrite (setdefault_present _ "etag" _ _ Hetag).
  unfold stamped; destruct r; reflexivity.
Qed.

Variable os : OS.

(** The hook leaves the response alone or sets the identity headers. *)
Lemma pre_call_self (os0 : OS) (w : World) :
  self (snd (pre_call os0 w)) = self w
  \/ exists sz mt date, self (snd (pre_call os0 w)) = stamped (self w) sz mt date.
Proof.
  destruct (source_cases (self w)) as [[p [s Hsrc]] | [c Hmem]].
  - rewrite (pre_call_file os0 p s w Hsrc).
    destruct s as [s|]; [|destruct (os_stat os0 p) as [e|s]].
    + destruct (S_ISREG (st_mode s)); left; reflexivity.
    + destruct e; left; reflexivity.
    + destruct (formatdate (st_mtime s)) as [e|date].
      * destruct e; left; reflexivity.
      * cbv zeta; destruct (S_ISREG (st_mode s)); right;
          exists (st_size s), (st_mtime s), date; reflexivity.
  - rewrite (pre_call_memory os0 c w Hmem); unfold memory_hook; cbv zeta.
    destruct (formatdate _) as [e|date].
    + left; reflexivity.
    + right; eexists; eexists; exists date; reflexivity.
Qed.

(** A header the caller passed to the constructor, under a name in any
    letter case, is still there with the caller's value after construction
    and after the pre-send hook, for every class: neither the
    content-type, the content-disposition nor the identity headers of the
    package replace it. *)
Theorem caller_headers_win
  (src : Source) (args : Common) (media_type filename : option string)
  (size : option Z) (mtime : option float) (key v : string) :
  caller_header key (arg_headers args) = Some v ->
  let r := BaseFileResponse_init src args media_type filename size mtime in
  header_get key (raw_headers r) = Some v
  /\ header_get key (raw_headers (self (snd (pre_call os (fresh r))))) = Some v.
Proof.
  intros Hcaller r.
  assert (Hr : header_get key (raw_headers r) = Some v).
  { unfold r, BaseFileResponse_init.
    destruct filename as [name|]; cbn [raw_headers].
    - unfold set_content_disposition_header; cbn [filename raw_headers with_headers].
      apply header_get_setdefault_keeps, init_headers_keeps; exact Hcaller.
    - apply init_headers_keeps; exact Hcaller. }
  split; [exact Hr|].
  destruct (pre_call_self os (fresh r)) as [Hsame | [sz [mt [date Hset]]]].
  - rewrite Hsame; exact Hr.
  - rewrite Hset; apply stamped_keeps; exact Hr.
Qed.

(** Once the hook has set the identity headers, running it again changes
    no header, even if the file, the clock or the operating system have
    changed in between: the headers of the first invocation stay. *)
Theorem identity_headers_are_set_once
  (os' : OS) (w : World) (sz : Z) (mt : float) :
  derived_identity os w = Some (sz, mt) ->
  let w1 := snd (pre_call os w) in
  raw_headers (self (snd (pre_call os' w1))) = raw_headers (self w1).
Proof.
  intros Hid w1.
  destruct (pre_call_derives os w sz mt Hid) as [date [_ [Hfirst _]]]; fold w1 in Hfirst.
  destruct (pre_call_self os' w1) as [Hsame | [sz' [mt' [date' Hset]]]].
  - now rewrite Hsame.
  - now rewrite Hset, Hfirst, stamped_twice.
Qed.

End HeadersAcross.

(** ** The text class, the clock, and the media type *)

Section Classes.

Context {lib : Collaborators}.
Variable os : OS.

Lemma call_as_text (scope : Scope) (w : World) (content : bytes) :
  source (self w) = BytesSource content ->
  call os scope (world_as_text w)
  = (fst (call os scope w), world_as_text (snd (call os scope w))).
Proof.
  destruct w as [[src st md bg fn h sz mt cs] t o]; simpl; intros ->.
  pose proof (pre_call_memory os content
                (mkWorld (mkResponse (BytesSource content) st md bg fn h sz mt cs) t o)
                eq_refl) as Hb.
  pose proof (pre_call_memory os content
                (mkWorld (mkResponse (TextSource content) st md bg fn h sz mt cs) t o)
                eq_refl) as Ht.
  unfold memory_hook in Hb, Ht; cbv zeta in Hb, Ht.
  cbn [self ticks out size mtime] in Hb, Ht.
  unfold world_as_text, as_text; cbn [self ticks out source status_code media_type
    background filename raw_headers size mtime chunk_size].
  destruct (formatdate (fst (header_mtime os mt t))) as [e|date].
  - rewrite (call_pre_call_raises os scope _ _ e Hb).
    rewrite (call_pre_call_raises os scope _ _ e Ht); reflexivity.
  - destruct (String.eqb_spec (upper (method scope)) "HEAD") as [Hhead | Hother].
    + rewrite (call_head os scope _ _ Hb Hhead), (call_head os scope _ _ Ht Hhead).
      reflexivity.
    + destruct (slicer content cs) as [e|chunks] eqn:Hcs.
      * rewrite (call_memory_slicer_raises os scope _ _ content e Hb Hother eq_refl Hcs).
        rewrite (call_memory_slicer_raises os scope _ _ content e Ht Hother eq_refl Hcs).
        reflexivity.
      * rewrite (call_memory_chunks os scope _ _ content chunks Hb Hother eq_refl Hcs).
        rewrite (call_memory_chunks os scope _ _ content chunks Ht Hother eq_refl Hcs).
        reflexivity.
Qed.

(** A text response is the bytes response for the encoded text seen as an
    instance of the text class, and every call of the one does what the
    same call of the other does: same outcome, log, clock and headers, for
    every chunk threshold, request, clock and log so far. *)
Theorem text_response_is_a_bytes_response
  (content name : string) (args : Common) (size : option Z) (mtime : option float)
  (n : Z) (scope : Scope) (t : nat) (o : list Event) :
  let rt := TextFileResponse_init content name args size mtime in
  let rb := BytesFileResponse_init (encode content) name args size mtime in
  let ct := call os scope (mkWorld (with_chunk_size rt n) t o) in
  let cb := call os scope (mkWorld (with_chunk_size rb n) t o) in
  rt = as_text rb
  /\ fst ct = fst cb
  /\ out (snd ct) = out (snd cb)
  /\ ticks (snd ct) = ticks (snd cb)
  /\ raw_headers (self (snd ct)) = raw_headers (self (snd cb)).
Proof.
  intros rt rb ct cb.
  assert (Hrt : rt = as_text rb) by reflexivity.
  split; [exact Hrt|]; unfold ct, cb; rewrite Hrt.
  assert (Hw : mkWorld (with_chunk_size (as_text rb) n) t o
               = world_as_text (mkWorld (with_chunk_size rb n) t o)) by reflexivity.
  rewrite Hw, (call_as_text scope _ (encode content)) by reflexivity.
  repeat split.
Qed.

(** For an in-memory response built without a size (or with size 0) and
    without a content-length of the caller's, whose pre-send hook passes,
    asked with a method other than HEAD and a positive threshold, the
    content-length in the start frame is the decimal number of payload bytes
    the body frames carry. *)
Theorem content_length_is_what_is_sent
  (scope : Scope) (r : Response) (content : bytes) (w1 : World) :
  memory_content r = Some content ->
  pre_call os (fresh r) = (Ok tt, w1) ->
  size r = None \/ size r = Some 0 ->
  header_get "content-length" (raw_headers r) = None ->
  0 < chunk_size r ->
  upper (method scope) <> "HEAD" ->
  exists h rest,
    messages (out (snd (call os scope (fresh r)))) = ResponseStart (status_code r) h :: rest
    /\ header_get "content-length" h
       = Some (str_int (len (payloads (out (snd (call os scope (fresh r))))))).
Proof.
  intros Hmem Hpre Hsize Habsent Hpos Hother.
  destruct (memory_payloads os scope r content w1 Hmem Hpre Hpos Hother) as [_ Hpay].
  rewrite Hpay.
  destruct (memory_call_log os scope r content _ w1 Hmem Hpre Hother
              (slicer_chunks content (chunk_size r) Hpos)) as [_ Hout].
  rewrite Hout; cbn [messages].
  eexists; eexists; split; [reflexivity|].
  destruct (pre_call_memory_passes os content (fresh r) w1 Hmem Hpre) as [date [_ Hw1]].
  rewrite Hw1; cbn [self fresh ticks].
  pose proof (stamped_get r (or_int (size r) (len content))
                (fst (header_mtime os (mtime r) 0)) date) as Hget.
  cbv zeta in Hget; destruct Hget as [Hlen _].
  rewrite Hlen; unfold kept_or; rewrite Habsent.
  destruct Hsize as [-> | ->]; reflexivity.
Qed.

(** How the in-memory hook uses the clock: with no mtime it reads it twice
    and, if [formatdate] has a date for the second reading, dates the headers
    by it; with an mtime other than zero it does not read it and, if
    [formatdate] has a date for that mtime, dates the headers by it. *)
Theorem hook_clock_readings (w : World) (content : bytes) :
  memory_content (self w) = Some content ->
  let h := raw_headers (self w) in
  let w1 := snd (pre_call os w) in
  let h' := raw_headers (self w1) in
  (mtime (self w) = None ->
   ticks w1 = S (S (ticks w))
   /\ forall date,
        formatdate (monotonic os (S (ticks w))) = inr date ->
        header_get "last-modified" h = None ->
        header_get "last-modified" h' = Some date)
  /\ (forall m,
        mtime (self w) = Some m ->
        truthy_float m = true ->
        ticks w1 = ticks w
        /\ forall date,
             formatdate m = inr date ->
             header_get "last-modified" h = None ->
             header_get "last-modified" h' = Some date).
Proof.
  intros Hmem; cbv zeta; rewrite (pre_call_memory os content w Hmem).
  unfold memory_hook, header_mtime; cbv zeta.
  split.
  - intros Hnone; rewrite Hnone; cbn [fst snd].
    destruct (formatdate (monotonic os (S (ticks w)))) as [e|d]; cbn [snd ticks self].
    + split; [reflexivity | intros date Hdate; discriminate].
    + split; [reflexivity|]; intros date Hdate Habsent; inversion Hdate; subst.
      pose proof (stamped_get (self w) (or_int (size (self w)) (len content))
                    (monotonic os (S (ticks w))) date) as Hget.
      cbv zeta in Hget; destruct Hget as [_ [Hmod _]].
      rewrite Hmod; unfold kept_or; now rewrite Habsent.
  - intros m Hm Htruthy; rewrite Hm, Htruthy; cbn [fst snd].
    destruct (formatdate m) as [e|d]; cbn [snd ticks self].
    + split; [reflexivity | intros date Hdate; discriminate].
    + split; [reflexivity|]; intros date Hdate Habsent; inversion Hdate; subst.
      pose proof (stamped_get (self w) (or_int (size (self w)) (len content))
                    m date) as Hget.
      cbv zeta in Hget; destruct Hget as [_ [Hmod _]].
      rewrite Hmod; unfold kept_or; now rewrite Habsent.
Qed.

End Classes.

Section MediaTypes.

Context {lib : Collaborators}.

(** A response constructed with a filename always has a media type, and
    a content-type header: the one given, else the one guessed from the
    filename, else (nothing guessed, or an empty guess) text/plain. *)
Theorem filename_gives_a_media_type
  (src : Source) (args : Common) (given : option string) (name : string)
  (size : option Z) (mtime : option float) :
  let r := BaseFileResponse_init src args given (Some name) size mtime in
  media_type r
  = Some match given with
         | Some t => t
         | None =>
             match guess_type name with
             | Some t => if String.eqb t EmptyString then "text/plain" else t
             | None => "text/plain"
             end
         end
  /\ header_get "content-type" (raw_headers r) <> None.
Proof.
  cbv zeta; unfold BaseFileResponse_init, set_content_disposition_header.
  cbn [filename raw_headers with_headers media_type].
  set (mt := match given with
             | Some _ => given
             | None => _
             end).
  assert (Hmt : exists t, mt = Some t
                          /\ t = match given with
                                 | Some t => t
                                 | None =>
                                     match guess_type name with
                                     | Some t => if String.eqb t EmptyString
                                                 then "text/plain" else t
                                     | None => "text/plain"
                                     end
                                 end).
  { unfold mt; destruct given as [t|]; [eauto|].
    destruct (guess_type name) as [t|]; [|eauto].
    destruct (String.eqb t EmptyString); eauto. }
  destruct Hmt as [t [Hmt Ht]]; rewrite Hmt, <- Ht; split; [reflexivity|].
  rewrite header_get_setdefault_other by (simpl; discriminate).
  unfold init_headers; cbv zeta.
  match goal with
  | |- context [match ?x with Some _ => false | None => true end] =>
      destruct x as [v|] eqn:Hct
  end; cbv iota.
  - rewrite Hct; discriminate.
  - rewrite header_get_app, Hct; simpl; discriminate.
Qed.

(** A file response constructed without a filename gets no
    content-disposition of the package's: the header is there only if the
    caller passed it; and its media type, unless given, is the guess from
    the path, possibly none. *)
Theorem no_filename_no_content_disposition
  (path : string) (args : Common) (stat : option stat_result) :
  let r := FileResponse_init path args None stat in
  header_get "content-disposition" (raw_headers r)
  = caller_header "content-disposition" (arg_headers args)
  /\ media_type r
     = match arg_media_type args with
       | Some t => Some t
       | None => guess_type path
       end.
Proof.
  cbv zeta; unfold FileResponse_init, BaseFileResponse_init.
  cbn [raw_headers media_type].
  split.
  - apply init_headers_get; discriminate.
  - destruct (arg_media_type args); [reflexivity|].
    destruct (guess_type path); reflexivity.
Qed.

End MediaTypes.

(** ** The further properties on concrete runs *)

(** Five bytes cut by two. *)
Lemma slicer_chunk_shape_witness :
  0 < 2
  /\ exists cs,
       slicer (encode "abcde") 2 = inr cs
       /\ Z.of_nat (length cs) = (len (encode "abcde") + 2 - 1) / 2
       /\ Forall (fun c => 0 < len c <= 2) cs
       /\ (forall i c, nth_error cs i = Some c -> (S i < length cs)%nat -> len c = 2).
Proof.
  split; [lia|].
  apply (slicer_chunk_shape (encode "abcde") 2); lia.
Defined.

(** A bytes response of five bytes sent in chunks of two. *)
Lemma in_memory_body_round_trip_witness :
  let r := with_chunk_size
             (BytesFileResponse_init (encode "abcde") "example.png" default_args
                                     None None) 2 in
  fst (pre_call Demo.os (fresh r)) = Ok tt
  /\ fst (call Demo.os Demo.get (fresh r)) = Ok tt
  /\ payloads (out (snd (call Demo.os Demo.get (fresh r)))) = encode "abcde"
  /\ Z.of_nat (length (body_frames (messages (out (snd (call Demo.os Demo.get (fresh r)))))))
     = (len (encode "abcde") + chunk_size r - 1) / chunk_size r.
Proof.
  intros r.
  assert (Hpre : pre_call Demo.os (fresh r)
                 = (Ok tt, snd (pre_call Demo.os (fresh r))))
    by (vm_compute; reflexivity).
  split; [rewrite Hpre; reflexivity|].
  apply (in_memory_body_round_trip Demo.os Demo.get r (encode "abcde") _ eq_refl Hpre);
    [reflexivity | vm_compute; discriminate].
Defined.

(** A text response with its threshold set to zero. *)
Lemma zero_threshold_witness :
  let r := with_chunk_size
             (TextFileResponse_init "abcde" "a.txt" default_args None None) 0 in
  fst (pre_call Demo.os (fresh r)) = Ok tt
  /\ fst (call Demo.os Demo.get (fresh r))
     = Raise (ValueError "range() arg 3 must not be zero")
  /\ out (snd (call Demo.os Demo.get (fresh r)))
     = [Sent (ResponseStart (status_code r)
                (raw_headers (self (snd (pre_call Demo.os (fresh r))))))].
Proof.
  intros r.
  assert (Hpre : pre_call Demo.os (fresh r)
                 = (Ok tt, snd (pre_call Demo.os (fresh r))))
    by (vm_compute; reflexivity).
  split; [rewrite Hpre; reflexivity|].
  apply (zero_threshold_raises_after_start Demo.os Demo.get r (encode "abcde") _
           eq_refl Hpre);
    [reflexivity | vm_compute; discriminate].
Defined.

(** A bytes response with its threshold set to minus one. *)
Lemma negative_threshold_witness :
  let r := with_chunk_size
             (BytesFileResponse_init (encode "abcde") "example.png" default_args
                                     None None) (-1) in
  fst (pre_call Demo.os (fresh r)) = Ok tt
  /\ fst (call Demo.os Demo.get (fresh r)) = Ok tt
  /\ body_frames (messages (out (snd (call Demo.os Demo.get (fresh r))))) = [].
Proof.
  intros r.
  assert (Hpre : pre_call Demo.os (fresh r)
                 = (Ok tt, snd (pre_call Demo.os (fresh r))))
    by (vm_compute; reflexivity).
  split; [rewrite Hpre; reflexivity|].
  apply (negative_threshold_sends_no_body Demo.os Demo.get r (encode "abcde") _
           eq_refl Hpre);
    [reflexivity | vm_compute; discriminate].
Defined.

(** Five bytes in chunks of two: true, true, false. *)
Lemma ragged_content_witness :
  let r := with_chunk_size
             (BytesFileResponse_init (encode "abcde") "example.png" default_args
                                     None None) 2 in
  fst (pre_call Demo.os (fresh r)) = Ok tt
  /\ more_flags (out (snd (call Demo.os Demo.get (fresh r))))
     = repeat true (chunk_count (encode "abcde") (chunk_size r) - 1) ++ [false].
Proof.
  intros r.
  assert (Hpre : pre_call Demo.os (fresh r)
                 = (Ok tt, snd (pre_call Demo.os (fresh r))))
    by (vm_compute; reflexivity).
  split; [rewrite Hpre; reflexivity|].
  apply (ragged_content_ends_the_body Demo.os Demo.get r (encode "abcde") _
           eq_refl Hpre);
    [reflexivity | vm_compute; discriminate | vm_compute; discriminate].
Defined.

(** Four bytes in chunks of two: true, true. *)
Lemma even_content_witness :
  let r := with_chunk_size
             (BytesFileResponse_init (encode "abcd") "example.png" default_args
                                     None None) 2 in
  fst (pre_call Demo.os (fresh r)) = Ok tt
  /\ fst (call Demo.os Demo.get (fresh r)) = Ok tt
  /\ more_flags (out (snd (call Demo.os Demo.get (fresh r))))
     = repeat true (Z.to_nat (len (encode "abcd") / chunk_size r)).
Proof.
  intros r.
  assert (Hpre : pre_call Demo.os (fresh r)
                 = (Ok tt, snd (pre_call Demo.os (fresh r))))
    by (vm_compute; reflexivity).
  split; [rewrite Hpre; reflexivity|].
  apply (even_content_never_ends_the_body Demo.os Demo.get r (encode "abcd") _
           eq_refl Hpre);
    [reflexivity | reflexivity | vm_compute; discriminate].
Defined.


(** The three-byte file with a threshold of two. *)
Lemma long_file_witness :
  let r := with_chunk_size
             (FileResponse_init "/srv/abc" default_args (Some "example.png") None) 2 in
  fst (call Demo.os Demo.get (fresh r)) = Ok tt
  /\ body_frames (messages (out (snd (call Demo.os Demo.get (fresh r)))))
     = [(firstn (Z.to_nat (chunk_size r)) (encode "abc"), true)]
  /\ len (payloads (out (snd (call Demo.os Demo.get (fresh r))))) = chunk_size r.
Proof.
  intros r.
  assert (Hpre : pre_call Demo.os (fresh r)
                 = (Ok tt, snd (pre_call Demo.os (fresh r))))
    by (vm_compute; reflexivity).
  apply (long_file_is_cut_at_the_threshold Demo.os Demo.get r "/srv/abc" None
           (encode "abc") _ eq_refl Hpre eq_refl);
    [vm_compute; discriminate | vm_compute; split; discriminate].
Defined.

(** A file response built with the stat of a regular file for a path that
    is no longer there. *)
Lemma stale_stat_witness :
  let stat := {| st_mode := 33188; st_size := 3; st_mtime := 1700000000%float |} in
  let r := FileResponse_init "/srv/gone" default_args (Some "example.png") (Some stat) in
  call Demo.os Demo.get (fresh r)
  = (Raise (FileNotFoundError "/srv/gone"),
     mkWorld r 0 [Sent (ResponseStart (status_code r) (raw_headers r))]).
Proof.
  intros stat r.
  apply (stale_stat_fails_after_start Demo.os Demo.get r "/srv/gone" stat
           (FileNotFoundError "/srv/gone") eq_refl eq_refl eq_refl).
  vm_compute; discriminate.
Defined.

(** An operating system whose [os.stat] is refused. *)
Lemma other_stat_errors_witness :
  let os := with_os_stat Demo.os (fun p => inl (OSError p)) in
  let r := FileResponse_init "/srv/abc" default_args (Some "example.png") None in
  call os Demo.get (fresh r) = (Raise (OSError "/srv/abc"), fresh r).
Proof.
  intros os r.
  apply (other_stat_errors_pass_through os Demo.get (fresh r) "/srv/abc"
           (OSError "/srv/abc") eq_refl eq_refl).
  intros p; discriminate.
Defined.

(** The same file response with a stat given, under an [os.stat] that
    would refuse. *)
Lemma precomputed_stat_witness :
  let stat := {| st_mode := 33188; st_size := 3; st_mtime := 1700000000%float |} in
  let r := FileResponse_init "/srv/abc" default_args (Some "example.png") (Some stat) in
  call (with_os_stat Demo.os (fun p => inl (OSError p))) Demo.get (fresh r)
  = call Demo.os Demo.get (fresh r).
Proof.
  intros stat r.
  apply (precomputed_stat_is_trusted Demo.os Demo.get (fresh r) "/srv/abc" stat
           (fun p => inl (OSError p)) eq_refl).
Defined.

(** A file response with a background task that fails on opening. *)
Lemma failed_call_witness :
  let stat := {| st_mode := 33188; st_size := 3; st_mtime := 1700000000%float |} in
  let args := {| arg_status_code := 200;
                 arg_headers := None;
                 arg_media_type := None;
                 arg_background := Some Demo.task;
                 arg_content_disposition_type := "attachment" |} in
  let r := FileResponse_init "/srv/gone" args (Some "example.png") (Some stat) in
  let result := call Demo.os Demo.get (fresh r) in
  result = (Raise (FileNotFoundError "/srv/gone"), snd result)
  /\ exists transfer,
       out (snd result) = out (fresh r) ++ transfer
       /\ forallb is_transfer transfer = true
       /\ task_starts transfer = O.
Proof.
  intros stat args r result.
  assert (Hcall : result = (Raise (FileNotFoundError "/srv/gone"), snd result))
    by (vm_compute; reflexivity).
  split; [exact Hcall|].
  exact (failed_call_runs_no_task Demo.os Demo.get (fresh r) (snd result)
           (FileNotFoundError "/srv/gone") Hcall).
Defined.

(** A caller passing [ETag] to a bytes response. *)
Lemma caller_headers_win_witness :
  let args := {| arg_status_code := 200;
                 arg_headers := Some [("ETag", "abc")];
                 arg_media_type := None;
                 arg_background := None;
                 arg_content_disposition_type := "attachment" |} in
  let r := BaseFileResponse_init (BytesSource (encode "abcde")) args None
                                 (Some "example.png") None None in
  header_get "etag" (raw_headers r) = Some "abc"
  /\ header_get "etag" (raw_headers (self (snd (pre_call Demo.os (fresh r))))) = Some "abc".
Proof.
  intros args r.
  apply (caller_headers_win Demo.os (BytesSource (encode "abcde")) args None
           (Some "example.png") None None "etag" "abc").
  reflexivity.
Defined.

(** The hook of a file response, run again under an [os.stat] that
    refuses. *)
Lemma identity_headers_are_set_once_witness :
  let os' := with_os_stat Demo.os (fun p => inl (OSError p)) in
  let r := FileResponse_init "/srv/abc" default_args (Some "example.png") None in
  let w1 := snd (pre_call Demo.os (fresh r)) in
  derived_identity Demo.os (fresh r) = Some (3, 1700000000%float)
  /\ raw_headers (self (snd (pre_call os' w1))) = raw_headers (self w1).
Proof.
  intros os' r w1; split; [reflexivity|].
  apply (identity_headers_are_set_once Demo.os os' (fresh r) 3 1700000000%float).
  reflexivity.
Defined.

(** Five bytes, no size given: content-length 5. *)
Lemma content_length_witness :
  let r := with_chunk_size
             (BytesFileResponse_init (encode "abcde") "example.png" default_args
                                     None None) 2 in
  fst (pre_call Demo.os (fresh r)) = Ok tt
  /\ exists h rest,
       messages (out (snd (call Demo.os Demo.get (fresh r))))
       = ResponseStart (status_code r) h :: rest
       /\ header_get "content-length" h
          = Some (str_int (len (payloads (out (snd (call Demo.os Demo.get (fresh r))))))).
Proof.
  intros r.
  assert (Hpre : pre_call Demo.os (fresh r)
                 = (Ok tt, snd (pre_call Demo.os (fresh r))))
    by (vm_compute; reflexivity).
  split; [rewrite Hpre; reflexivity|].
  apply (content_length_is_what_is_sent Demo.os Demo.get r (encode "abcde") _
           eq_refl Hpre);
    [left; reflexivity | vm_compute; reflexivity | reflexivity
    | vm_compute; discriminate].
Defined.

(** The hook of a bytes response without an mtime, with the clock of
    [Demo]: the second reading, 13.5, dates the response. *)
Lemma hook_clock_readings_witness :
  let r := BytesFileResponse_init (encode "abcde") "example.png" default_args
                                  None None in
  let w1 := snd (pre_call Demo.os (fresh r)) in
  ticks w1 = 2%nat
  /\ exists date,
       formatdate 13.5%float = inr date
       /\ header_get "last-modified" (raw_headers (self w1)) = Some date.
Proof.
  intros r w1.
  destruct (proj1 (hook_clock_readings Demo.os (fresh r) (encode "abcde") eq_refl)
              eq_refl) as [Hticks Hmod].
  split; [exact Hticks|].
  exists "<http-date>"; split; [vm_compute; reflexivity|].
  apply Hmod; vm_compute; reflexivity.
Defined.
